(** * DefaultTrainer: epoch loop, checkpoint save and recovery

    A shallow embedding of [experimental/plugin/trainer/default_trainer.py]
    (class [DefaultTrainer]): the methods [recovery], [train],
    [_get_local_path] and [save] are transcribed statement by statement into
    a small state, exception and event monad.  The tensor engine, the
    optimizer, the rate scheduler, the accelerator and the checkpoint
    directory are collaborators of the trainer; they appear as an interface
    ([Backend]) and as a finite map from paths to directory contents.

    The construction of the trainer ([__init__], [_coordinate],
    [_get_lr_scheduler], [prepare]) follows, over a second interface
    ([Workbench]), then the model factory of
    [common/model/huggingface_model_from_config.py] and
    [Predictor.configure_tokenizer] of [llm_on_ray/inference/predictor.py]. *)

From Stdlib Require Import ZArith List Floats.SpecFloat.
From stdpp Require Import gmap strings list pretty.

Open Scope Z_scope.

(** ** Python values and exceptions *)

(** The scalar values a checkpoint policy or a checkpoint entry may hold. *)
Inductive pyval :=
| PNone
| PInt (z : Z)
| PStr (s : string).

(** [str(v)], as an f-string renders a value. *)
Definition py_str (v : pyval) : string :=
  match v with
  | PNone => "None"%string
  | PInt z => pretty z
  | PStr s => s
  end.

(** The exception classes the trainer can meet; all derive from
    [Exception]. *)
Inductive exn :=
| AttributeError
| KeyError
| TypeError
| OverflowError
| ZeroDivisionError
| FileNotFoundError
| RuntimeError.

Definition exn_eqb (a b : exn) : bool :=
  match a, b with
  | AttributeError, AttributeError
  | KeyError, KeyError
  | TypeError, TypeError
  | OverflowError, OverflowError
  | ZeroDivisionError, ZeroDivisionError
  | FileNotFoundError, FileNotFoundError
  | RuntimeError, RuntimeError => true
  | _, _ => false
  end.

(** [except Exception] and [except OverflowError]. *)
Definition is_Exception (e : exn) : bool := true.
Definition is_OverflowError (e : exn) : bool := exn_eqb e OverflowError.

Inductive result (A : Type) :=
| Ok (a : A)
| Raise (e : exn).
Arguments Ok {A} a.
Arguments Raise {A} e.

(** ** Floats and [math.exp] *)

(** Python floats are IEEE binary64 values. *)
Abbreviation float := spec_float (only parsing).

Definition float_inf : float := S754_infinity false.
Definition float_one : float := S754_finite false 4503599627370496 (-52).

(** The largest binary64 [x] whose exponential is finite,
    [0x1.62e42fefa39efp+9] (about 709.7827). *)
Definition exp_max_arg : float := S754_finite false 6243314768165359 (-43).

(** [math.exp x]: the C library exponential, with [OverflowError] when the
    argument is finite and the result is not.  [libm_exp] gives the result
    on the finite arguments that do not overflow. *)
Definition math_exp (libm_exp : float -> float) (x : float) : result float :=
  match x with
  | S754_nan => Ok S754_nan
  | S754_infinity false => Ok float_inf
  | S754_infinity true => Ok (S754_zero false)
  | S754_zero _ => Ok float_one
  | S754_finite _ _ _ =>
      if SFltb exp_max_arg x then Raise OverflowError else Ok (libm_exp x)
  end.

(** ** Collaborators *)

(** What the trainer consumes from the tensor engine, the optimizer, the
    scheduler and the accelerator.  State dictionaries are opaque blobs.  A
    loader returns the object as the call leaves it together with the
    exception it raised, if any: a failed [load_state_dict] may already have
    copied part of the state.  [self.model] is the model as the accelerator
    prepared it; [unwrap_model] gives the model inside. *)
Class Backend := {
  Model : Type;
  Optim : Type;
  Sched : Type;
  Batch : Type;
  Tensor : Type;
  Blob : Type;
  model_train : Model -> Model;
  model_eval : Model -> Model;
  forward : Model -> Batch -> Tensor;
  backward : Tensor -> Model -> Model;
  optimizer_step : Optim -> Model -> Optim * Model;
  scheduler_step : Sched -> Optim -> Sched * Optim;
  zero_grad : Optim -> Model -> Model;
  repeat_gather : Tensor -> Tensor;
  torch_cat : list Tensor -> Tensor;
  torch_mean : Tensor -> Tensor;
  tensor_float : Tensor -> float;
  libm_exp : float -> float;
  unwrap_model : Model -> Model;
  model_state_dict : Model -> Blob;
  model_load_state_dict : Model -> Blob -> Model * option exn;
  optimizer_state_dict : Optim -> Blob;
  optimizer_load_state_dict : Optim -> Blob -> Optim * option exn;
  scheduler_state_dict : Sched -> Blob;
  scheduler_load_state_dict : Sched -> Blob -> Sched * option exn
}.

Section Trainer.

Context {B : Backend}.

(** ** Data *)

(** An entry of a checkpoint dictionary: the epoch is a scalar, the states
    are blobs. *)
Inductive ckval :=
| VPy (v : pyval)
| VBlob (b : Blob).

(** What [Checkpoint.from_directory(path).to_dict()] finds at a path: a
    dictionary, or content that cannot be read back. *)
Inductive directory :=
| Stored (d : gmap string ckval)
| Unreadable.

(** [self.config]: the keys [train] reads.  [None] stands for an absent key
    (or, for [checkpoint], a key holding [None]); [output] distinguishes the
    absent key, which defaults to ["./output"], from an explicit [None]. *)
Record JobConfig := {
  num_train_epochs : option Z;
  log_step : option Z;
  checkpoint : option (gmap string pyval);
  output : option (option string)
}.

(** The log lines, by the place that writes them. *)
Inductive info :=
| StartRecovery (path : string)
| RecoveryTo (epoch : Z)
| StartTrainEpoch (idx : Z)
| TrainStep (idx step : Z) (loss : Tensor) (ppl : float)
| StartEvalEpoch (idx : Z)
| EvalEpoch (idx : Z) (eval_loss : Tensor + float) (ppl : float)
| SaveCheckpointTo (path : string)
| SaveCheckpointFinish
| StartSaveModel (out : string)
| FinishSaveModel (out : string).

(** The calls into collaborators that the trainer makes, in order. *)
Inductive event :=
| LogWarning (msg : string)
| LogInfo (msg : info)
| ModelTrain
| ModelEval
| Accumulate
| Forward (b : Batch)
| Backward
| OptimizerStep
| SchedulerStep
| ZeroGrad
| GatherForMetrics
| CheckpointWrite (path : string) (d : gmap string ckval)
| WaitForEveryone
| SavePretrained (out : string).

(** The trainer object after [prepare], and the checkpoint directories. *)
Record world := {
  config : JobConfig;
  rank : Z;
  size : Z;
  train_dataloader : list Batch;
  eval_dataloader : option (list Batch);
  model : Model;
  optimizer : Optim;
  lr_scheduler : option Sched;
  starting_epoch : Z;
  fs : gmap string directory
}.

Definition set_model (m : Model) (w : world) : world :=
  {| config := config w; rank := rank w; size := size w;
     train_dataloader := train_dataloader w;
     eval_dataloader := eval_dataloader w;
     model := m; optimizer := optimizer w; lr_scheduler := lr_scheduler w;
     starting_epoch := starting_epoch w; fs := fs w |}.

Definition set_optimizer (o : Optim) (w : world) : world :=
  {| config := config w; rank := rank w; size := size w;
     train_dataloader := train_dataloader w;
     eval_dataloader := eval_dataloader w;
     model := model w; optimizer := o; lr_scheduler := lr_scheduler w;
     starting_epoch := starting_epoch w; fs := fs w |}.

Definition set_lr_scheduler (s : option Sched) (w : world) : world :=
  {| config := config w; rank := rank w; size := size w;
     train_dataloader := train_dataloader w;
     eval_dataloader := eval_dataloader w;
     model := model w; optimizer := optimizer w; lr_scheduler := s;
     starting_epoch := starting_epoch w; fs := fs w |}.

Definition set_starting_epoch (e : Z) (w : world) : world :=
  {| config := config w; rank := rank w; size := size w;
     train_dataloader := train_dataloader w;
     eval_dataloader := eval_dataloader w;
     model := model w; optimizer := optimizer w;
     lr_scheduler := lr_scheduler w;
     starting_epoch := e; fs := fs w |}.

Definition set_fs (f : gmap string directory) (w : world) : world :=
  {| config := config w; rank := rank w; size := size w;
     train_dataloader := train_dataloader w;
     eval_dataloader := eval_dataloader w;
     model := model w; optimizer := optimizer w;
     lr_scheduler := lr_scheduler w;
     starting_epoch := starting_epoch w; fs := f |}.

(** ** The monad: state, exceptions, emitted events *)

Definition Py (A : Type) : Type := world -> result A * world * list event.

Definition ret {A} (a : A) : Py A := fun w => (Ok a, w, []).

Definition bind {A C} (m : Py A) (k : A -> Py C) : Py C :=
  fun w =>
    match m w with
    | (Ok a, w1, t1) =>
        match k a w1 with
        | (r, w2, t2) => (r, w2, t1 ++ t2)
        end
    | (Raise e, w1, t1) => (Raise e, w1, t1)
    end.

Definition raise {A} (e : exn) : Py A := fun w => (Raise e, w, []).
Definition emit (ev : event) : Py unit := fun w => (Ok tt, w, [ev]).
Definition get : Py world := fun w => (Ok w, w, []).
Definition modify (f : world -> world) : Py unit := fun w => (Ok tt, f w, []).
Definition lift {A} (r : result A) : Py A := fun w => (r, w, []).

(** [try: body except <catches> as e: handler e]. *)
Definition try_except {A} (body : Py A) (catches : exn -> bool)
    (handler : exn -> Py A) : Py A :=
  fun w =>
    match body w with
    | (Raise e, w1, t1) =>
        if catches e then
          match handler e w1 with
          | (r, w2, t2) => (r, w2, t1 ++ t2)
          end
        else (Raise e, w1, t1)
    | ok => ok
    end.

End Trainer.

Declare Scope py_scope.
Delimit Scope py_scope with py.
Notation "x <- m ;; k" := (bind m (fun x => k))
  (at level 100, m at next level, right associativity) : py_scope.
Notation "m ;; k" := (bind m (fun _ => k))
  (at level 100, right associativity) : py_scope.
Open Scope py_scope.

Section Methods.

Context {B : Backend}.

(** ** Python control flow and built-ins *)

Inductive ctrl := Continue | Break.

(** [for x in l: body], the body ending in [continue] or [break]; [s] holds
    the local variables the body updates. *)
Fixpoint for_each {A S : Type} (body : A -> S -> Py (ctrl * S))
    (l : list A) (s : S) : Py S :=
  match l with
  | [] => ret s
  | x :: l' =>
      r <- body x s ;;
      match r with
      | (Break, s') => ret s'
      | (Continue, s') => for_each body l' s'
      end
  end.

Fixpoint enumerate_from {A : Type} (n : Z) (l : list A) : list (Z * A) :=
  match l with
  | [] => []
  | x :: l' => (n, x) :: enumerate_from (n + 1) l'
  end.

Definition enumerate {A : Type} (l : list A) : list (Z * A) :=
  enumerate_from 0 l.

(** [range(start, stop, 1)]. *)
Definition range (start stop : Z) : list Z :=
  (fun i => start + Z.of_nat i) <$> seq 0 (Z.to_nat (stop - start)).

(** [a % b] on ints. *)
Definition py_mod (a b : Z) : result Z :=
  if b =? 0 then Raise ZeroDivisionError else Ok (a mod b).

(** [checkpoint_epoch + 1]. *)
Definition py_add_one (v : ckval) : result Z :=
  match v with
  | VPy (PInt z) => Ok (z + 1)
  | _ => Raise TypeError
  end.

(** [d[key]] on a dictionary. *)
Definition getitem (d : gmap string ckval) (key : string) : result ckval :=
  match d !! key with
  | Some v => Ok v
  | None => Raise KeyError
  end.

(** [config.get(key, dflt)] where [config] may be [None]. *)
Definition config_get (cfg : option (gmap string pyval)) (key : string)
    (dflt : pyval) : result pyval :=
  match cfg with
  | None => Raise AttributeError
  | Some d => Ok (default dflt (d !! key))
  end.

(** [config is {}]: identity with a dictionary that the expression itself
    has just created. *)
Definition is_fresh_dict (d : gmap string pyval) : bool := false.

(** [config is None or config is {}]. *)
Definition config_is_empty (cfg : option (gmap string pyval)) : bool :=
  match cfg with
  | None => true
  | Some d => is_fresh_dict d
  end.

Definition is_None (v : pyval) : bool :=
  match v with
  | PNone => true
  | _ => false
  end.

(** Truth value of a data loader: [None] and a loader of length 0 are
    false. *)
Definition loader_truthy (d : option (list Batch)) : bool :=
  match d with
  | Some (_ :: _) => true
  | _ => false
  end.

Definition when (b : bool) (m : Py unit) : Py unit :=
  if b then m else ret tt.

(** ** Calls into the collaborators *)

Definition call_forward (b : Batch) : Py Tensor :=
  w <- get ;;
  emit (Forward b) ;;
  ret (forward (model w) b).

Definition call_backward (loss : Tensor) : Py unit :=
  emit Backward ;;
  modify (fun w => set_model (backward loss (model w)) w).

Definition call_optimizer_step : Py unit :=
  emit OptimizerStep ;;
  modify (fun w =>
    let '(o, m) := optimizer_step (optimizer w) (model w) in
    set_optimizer o (set_model m w)).

Definition call_scheduler_step (s : Sched) : Py unit :=
  emit SchedulerStep ;;
  modify (fun w =>
    let '(s', o) := scheduler_step s (optimizer w) in
    set_lr_scheduler (Some s') (set_optimizer o w)).

Definition call_zero_grad : Py unit :=
  emit ZeroGrad ;;
  modify (fun w => set_model (zero_grad (optimizer w) (model w)) w).

(** [Checkpoint.from_directory(path).to_dict()]. *)
Definition checkpoint_from_directory (path : string)
    : Py (gmap string ckval) :=
  w <- get ;;
  match fs w !! path with
  | None => raise FileNotFoundError
  | Some Unreadable => raise RuntimeError
  | Some (Stored d) => ret d
  end.

(** [Checkpoint.to_directory(Checkpoint.from_dict(status), path)]. *)
Definition checkpoint_to_directory (status : gmap string ckval)
    (path : string) : Py unit :=
  emit (CheckpointWrite path status) ;;
  modify (fun w => set_fs (<[path := Stored status]> (fs w)) w).

(** [self.model.load_state_dict(v)]. *)
Definition load_model (v : ckval) : Py unit :=
  match v with
  | VPy _ => raise TypeError
  | VBlob b =>
      w <- get ;;
      let '(m, r) := model_load_state_dict (model w) b in
      modify (set_model m) ;;
      match r with
      | Some e => raise e
      | None => ret tt
      end
  end.

(** [self.optimizer.load_state_dict(v)]. *)
Definition load_optimizer (v : ckval) : Py unit :=
  match v with
  | VPy _ => raise TypeError
  | VBlob b =>
      w <- get ;;
      let '(o, r) := optimizer_load_state_dict (optimizer w) b in
      modify (set_optimizer o) ;;
      match r with
      | Some e => raise e
      | None => ret tt
      end
  end.

(** [self.lr_scheduler.load_state_dict(v)]; the attribute may hold
    [None]. *)
Definition load_scheduler (v : ckval) : Py unit :=
  w <- get ;;
  match lr_scheduler w with
  | None => raise AttributeError
  | Some s =>
      match v with
      | VPy _ => raise TypeError
      | VBlob b =>
          let '(s', r) := scheduler_load_state_dict s b in
          modify (set_lr_scheduler (Some s')) ;;
          match r with
          | Some e => raise e
          | None => ret tt
          end
      end
  end.

(** [hasattr(self, "lr_scheduler")]: [prepare] assigns the attribute before
    it calls [recovery]. *)
Definition hasattr_lr_scheduler (w : world) : bool := true.

(** ** [DefaultTrainer._get_local_path] *)

(** The f-string over [self.rank] and [self.size]; [self] is the first
    argument. *)
Definition _get_local_path (self : world) (root_path model_name : pyval)
    : string :=
  (py_str root_path +:+ "/" +:+ py_str model_name +:+ "_"
   +:+ pretty (rank self) +:+ "-of-" +:+ pretty (size self))%string.

(** ** [DefaultTrainer.recovery] *)

(** The body of the [try] block. *)
Definition recovery_body (local_checkpoint_path : string) : Py unit :=
  emit (LogInfo (StartRecovery local_checkpoint_path)) ;;
  checkpoint_dict <- checkpoint_from_directory local_checkpoint_path ;;
  model_state <- lift (getitem checkpoint_dict "model") ;;
  load_model model_state ;;
  optimizer_state <- lift (getitem checkpoint_dict "optimizer_state_dict") ;;
  load_optimizer optimizer_state ;;
  w <- get ;;
  (if bool_decide (is_Some (checkpoint_dict !! "lr_scheduler"%string))
      && hasattr_lr_scheduler w
   then
     scheduler_state <- lift (getitem checkpoint_dict "lr_scheduler") ;;
     load_scheduler scheduler_state
   else ret tt) ;;
  checkpoint_epoch <- lift (getitem checkpoint_dict "epoch") ;;
  e <- lift (py_add_one checkpoint_epoch) ;;
  modify (set_starting_epoch e) ;;
  emit (LogInfo (RecoveryTo e)).

Definition recovery (cfg : option (gmap string pyval)) : Py unit :=
  when (config_is_empty cfg) (emit (LogWarning "checkpoint is empty, skip")) ;;
  root_path <- lift (config_get cfg "root_path" PNone) ;;
  model_name <- lift (config_get cfg "model_name" (PStr "")) ;;
  when (is_None root_path)
    (emit (LogWarning "checkpoint root_path is empty, skip")) ;;
  self <- get ;;
  let local_checkpoint_path := _get_local_path self root_path model_name in
  try_except (recovery_body local_checkpoint_path) is_Exception
    (fun _ => emit (LogWarning "recovery error")).

(** ** [DefaultTrainer.save] *)

Definition save (cfg : option (gmap string pyval)) (epoch : Z) : Py unit :=
  when (config_is_empty cfg) (emit (LogWarning "checkpoint is empty, skip")) ;;
  root_path <- lift (config_get cfg "root_path" PNone) ;;
  model_name <- lift (config_get cfg "model_name" (PStr "")) ;;
  when (is_None root_path)
    (emit (LogWarning "checkpoint root_path is empty, skip")) ;;
  self <- get ;;
  let local_checkpoint_path := _get_local_path self root_path model_name in
  emit (LogInfo (SaveCheckpointTo local_checkpoint_path)) ;;
  w <- get ;;
  let unwrapped_model := unwrap_model (model w) in
  let status : gmap string ckval :=
    <["optimizer_state_dict"%string := VBlob (optimizer_state_dict (optimizer w))]>
      (<["model"%string := VBlob (model_state_dict unwrapped_model)]>
         (<["epoch"%string := VPy (PInt epoch)]> ∅)) in
  let status :=
    match lr_scheduler w with
    | Some s => <["lr_scheduler"%string := VBlob (scheduler_state_dict s)]> status
    | None => status
    end in
  checkpoint_to_directory status local_checkpoint_path ;;
  emit (LogInfo SaveCheckpointFinish).

(** ** [DefaultTrainer.train] *)

(** The body of [for step, batch in enumerate(self.train_dataloader)]. *)
Definition train_batch (idx log_step : Z) (sb : Z * Batch) (_ : unit)
    : Py (ctrl * unit) :=
  let '(step, batch) := sb in
  emit Accumulate ;;
  loss <- call_forward batch ;;
  call_backward loss ;;
  call_optimizer_step ;;
  w <- get ;;
  match lr_scheduler w with
  | Some s => call_scheduler_step s
  | None => ret tt
  end ;;
  call_zero_grad ;;
  r <- lift (py_mod step log_step) ;;
  (if r =? 0 then
     ppl <- lift (math_exp libm_exp (tensor_float loss)) ;;
     emit (LogInfo (TrainStep idx step loss ppl))
   else ret tt) ;;
  if step =? 0 then ret (Break, tt) else ret (Continue, tt).

Definition train_phase (idx log_step : Z) : Py unit :=
  emit (LogInfo (StartTrainEpoch idx)) ;;
  emit ModelTrain ;;
  modify (fun w => set_model (model_train (model w)) w) ;;
  w <- get ;;
  for_each (train_batch idx log_step) (enumerate (train_dataloader w)) tt.

(** The body of [for step, batch in enumerate(self.eval_dataloader)];
    [losses] is the list built so far. *)
Definition eval_batch (sb : Z * Batch) (losses : list Tensor)
    : Py (ctrl * list Tensor) :=
  let '(step, batch) := sb in
  loss <- call_forward batch ;;
  emit GatherForMetrics ;;
  let losses := (losses ++ [repeat_gather loss])%list in
  if step =? 0 then ret (Break, losses) else ret (Continue, losses).

(** The [try] block that computes the mean loss and its exponential. *)
Definition eval_metrics (losses : Tensor) : Py ((Tensor + float) * float) :=
  try_except
    (let eval_loss := torch_mean losses in
     perplexity <- lift (math_exp libm_exp (tensor_float eval_loss)) ;;
     ret (inl eval_loss, perplexity))
    is_OverflowError
    (fun _ => ret (inr float_inf, float_inf)).

Definition eval_phase (idx : Z) : Py unit :=
  w <- get ;;
  if loader_truthy (eval_dataloader w) then
    emit (LogInfo (StartEvalEpoch idx)) ;;
    emit ModelEval ;;
    modify (fun w => set_model (model_eval (model w)) w) ;;
    losses <- for_each eval_batch
                (enumerate (default [] (eval_dataloader w))) [] ;;
    let losses := torch_cat losses in
    m <- eval_metrics losses ;;
    emit (LogInfo (EvalEpoch idx (fst m) (snd m)))
  else ret tt.

(** The body of [for idx in range(self.starting_epoch, num_train_epochs, 1)]. *)
Definition epoch_body (log_step : Z) (ckpt : option (gmap string pyval))
    (idx : Z) (_ : unit) : Py (ctrl * unit) :=
  train_phase idx log_step ;;
  eval_phase idx ;;
  match ckpt with
  | Some c => save (Some c) idx
  | None => ret tt
  end ;;
  emit WaitForEveryone ;;
  ret (Continue, tt).

(** What follows the epoch loop. *)
Definition finalize : Py unit :=
  w <- get ;;
  match default (Some "./output"%string) (output (config w)) with
  | Some out =>
      emit (LogInfo (StartSaveModel out)) ;;
      emit (SavePretrained out) ;;
      emit (LogInfo (FinishSaveModel out))
  | None => ret tt
  end ;;
  emit WaitForEveryone.

Definition train : Py unit :=
  w <- get ;;
  let num_train_epochs := default 1 (num_train_epochs (config w)) in
  let checkpoint := checkpoint (config w) in
  let log_step := default 1 (log_step (config w)) in
  for_each (epoch_body log_step checkpoint)
    (range (starting_epoch w) num_train_epochs) tt ;;
  finalize.

End Methods.

(** ** Construction and preparation: [__init__], [_coordinate],
    [_get_lr_scheduler] and [prepare] *)

(** A value of the scheduler section of the configuration. *)
Inductive setting :=
| SNone
| SBool (b : bool)
| SInt (z : Z)
| SStr (s : string).

(** The truth value of a setting, as [if] and [not] take it. *)
Definition truthy (v : setting) : bool :=
  match v with
  | SNone => false
  | SBool b => b
  | SInt z => negb (z =? 0)
  | SStr s => negb (String.eqb s "")
  end.

(** The whole configuration: the keys of the job, the section
    [dataprocesser] and the section [lr_scheduler].  [None] stands for an
    absent section or one that holds [None]. *)
Record TrainerConfig := {
  job_keys : JobConfig;
  dataprocesser_config : option (gmap string pyval);
  lr_scheduler_config : option (gmap string setting)
}.

(** What [__init__] can raise: an exception of the classes above, or the
    [ValueError] for an unknown data processor, with its message. *)
Inductive init_error :=
| Uncaught (e : exn)
| ValueError (msg : string).

(** What [__init__] and [prepare] consume besides the backend: the registry
    of data processors and the processor it builds, the tokenizer, the
    scheduler factory of [transformers] and the accelerator.  The
    accelerator hands back what it does not recognise, so that its
    [prepare] is applied to the scheduler and to the evaluation loader only
    when there is one. *)
Class Workbench {B : Backend} := {
  Tokenizer : Type;
  Dataset : Type;
  Accelerator : Type;
  DataProcesser : Type;
  registory : pyval -> option (gmap string pyval -> DataProcesser);
  dataprocesser_prepare :
    DataProcesser -> Tokenizer -> Dataset -> list Batch * option (list Batch);
  tokenizer_len : Tokenizer -> Z;
  embedding_size : Model -> Z;
  resize_token_embeddings : Model -> Z -> Model;
  get_scheduler : setting -> Optim -> setting -> setting -> result Sched;
  process_index : Accelerator -> Z;
  num_processes : Accelerator -> Z;
  local_process_index : Accelerator -> Z;
  accelerator_prepare_model : Accelerator -> Model -> Model;
  accelerator_prepare_optimizer : Accelerator -> Optim -> Optim;
  accelerator_prepare_scheduler : Accelerator -> Sched -> Sched;
  accelerator_prepare_dataloader : Accelerator -> list Batch -> list Batch
}.

Section Setup.

Context {B : Backend} {W : Workbench}.

(** The trainer object as [__init__] leaves it. *)
Record instance := {
  self_config : TrainerConfig;
  self_dataprocesser : DataProcesser;
  self_starting_epoch : Z
}.

(** The calls and log lines of [prepare]; [Trainer] carries the events of
    the kinds [train] emits too. *)
Inductive setup_event :=
| CoordinateFinish (size rank local_rank : Z)
| EmbeddingSize (n : Z)
| ResizeTokenEmbeddings (n : Z)
| Trainer (e : event).

(** *** [DefaultTrainer.__init__] *)

Definition __init__ (config : TrainerConfig) : init_error + instance :=
  match dataprocesser_config config with
  | None => inl (Uncaught AttributeError)
  | Some dataprocesser_config =>
      let dataprocesser_type :=
        default PNone (dataprocesser_config !! "type"%string) in
      match registory dataprocesser_type with
      | None =>
          inl (ValueError ("there is no " +:+ py_str dataprocesser_type
                           +:+ " dataprocesser."))
      | Some Factory =>
          inr {| self_config := config;
                 self_dataprocesser := Factory dataprocesser_config;
                 self_starting_epoch := 0 |}
      end
  end.

(** *** [DefaultTrainer._coordinate] *)

(** The rank, the size and the local rank it assigns, and what it emits. *)
Definition _coordinate (accelerator : Accelerator)
    : Z * Z * Z * list setup_event :=
  let rank := process_index accelerator in
  let size := num_processes accelerator in
  let local_rank := local_process_index accelerator in
  (rank, size, local_rank,
   [Trainer WaitForEveryone; CoordinateFinish size rank local_rank]).

(** *** [DefaultTrainer._get_lr_scheduler] *)

Definition is_SNone (v : setting) : bool :=
  match v with
  | SNone => true
  | _ => false
  end.

Definition _get_lr_scheduler (lr_scheduler_config : gmap string setting)
    (optimizer : Optim) (num_train_epochs num_steps_per_epoch : Z)
    (accelerator : Accelerator) : result (option Sched) :=
  let enable :=
    default (SBool false) (lr_scheduler_config !! "enable"%string) in
  if negb (truthy enable) then Ok None
  else
    let max_train_steps :=
      default SNone (lr_scheduler_config !! "max_train_steps"%string) in
    let lr_scheduler_type :=
      default (SStr "linear")
        (lr_scheduler_config !! "lr_scheduler_type"%string) in
    let num_warmup_steps :=
      default (SInt 0) (lr_scheduler_config !! "num_warmup_steps"%string) in
    let max_train_steps :=
      if is_SNone max_train_steps
      then SInt (num_steps_per_epoch * num_train_epochs)
      else max_train_steps in
    match get_scheduler lr_scheduler_type optimizer num_warmup_steps
            max_train_steps with
    | Ok lr_scheduler => Ok (Some lr_scheduler)
    | Raise e => Raise e
    end.

(** *** [DefaultTrainer.prepare] *)

(** The trainer that [prepare] assembles, before it looks for a
    checkpoint; [files] is the store it will look in. *)
Definition assemble (self : instance) (model : Model) (optimizer : Optim)
    (accelerator : Accelerator) (rank size : Z)
    (train_dataloader : list Batch) (eval_dataloader : option (list Batch))
    (lr_scheduler : option Sched) (files : gmap string directory) : world :=
  {| config := job_keys (self_config self);
     rank := rank;
     size := size;
     train_dataloader :=
       accelerator_prepare_dataloader accelerator train_dataloader;
     eval_dataloader :=
       accelerator_prepare_dataloader accelerator <$> eval_dataloader;
     model := accelerator_prepare_model accelerator model;
     optimizer := accelerator_prepare_optimizer accelerator optimizer;
     lr_scheduler := accelerator_prepare_scheduler accelerator <$> lr_scheduler;
     starting_epoch := self_starting_epoch self;
     fs := files |}.

Definition prepare (self : instance) (model : Model) (tokenizer : Tokenizer)
    (dataset : Dataset) (optimizer : Optim) (accelerator : Accelerator)
    (files : gmap string directory) : result world * list setup_event :=
  let '(rank, size, local_rank, coordinated) := _coordinate accelerator in
  let embedding_size := embedding_size model in
  let '(model, resized) :=
    if tokenizer_len tokenizer >? embedding_size
    then (resize_token_embeddings model (tokenizer_len tokenizer),
          [ResizeTokenEmbeddings (tokenizer_len tokenizer);
           Trainer (LogWarning ("model embedding size resize to "
                                +:+ pretty (tokenizer_len tokenizer)
                                +:+ " because of tokenizer size"))])
    else (model, []) in
  let '(train_dataloader, eval_dataloader) :=
    dataprocesser_prepare (self_dataprocesser self) tokenizer dataset in
  let lr_scheduler_config := lr_scheduler_config (self_config self) in
  let made :=
    match lr_scheduler_config with
    | Some c =>
        if bool_decide (c <> ∅) then
          let num_steps_per_epoch := Z.of_nat (length train_dataloader) in
          let num_train_epochs :=
            default 1 (num_train_epochs (job_keys (self_config self))) in
          _get_lr_scheduler c optimizer num_train_epochs num_steps_per_epoch
            accelerator
        else Ok None
    | None => Ok None
    end in
  let before := (coordinated ++ [EmbeddingSize embedding_size] ++ resized)%list in
  match made with
  | Raise e => (Raise e, before)
  | Ok lr_scheduler =>
      let w := assemble self model optimizer accelerator rank size
                 train_dataloader eval_dataloader lr_scheduler files in
      match checkpoint (job_keys (self_config self)) with
      | Some c =>
          let '(r, w', t) := recovery (Some c) w in
          (match r with
           | Ok _ => Ok w'
           | Raise e => Raise e
           end, (before ++ (Trainer <$> t))%list)
      | None => (Ok w, before)
      end
  end.

End Setup.


(** ** A concrete backend

    A one-parameter model on one worker: a batch carries the loss the model
    yields on it, tensors are lists of binary64 values, [mean] and the sum
    under it are computed in binary64, and a state dictionary is a list
    with one integer.  A loader copies the first integer of a list in and
    then rejects a list that holds more; it rejects the empty list
    outright. *)
Module Sample.

Definition f64_add : float -> float -> float := SFadd 53 1024.
Definition f64_div : float -> float -> float := SFdiv 53 1024.
Definition f64_of_Z (z : Z) : float := binary_normalize 53 1024 z 0 false.

Definition mean (t : list float) : list float :=
  [f64_div (foldr f64_add (S754_zero false) t)
     (f64_of_Z (Z.of_nat (length t)))].

Definition item (t : list float) : float :=
  match t with
  | x :: _ => x
  | [] => S754_nan
  end.

Definition load (current : Z) (blob : list Z) : Z * option exn :=
  match blob with
  | [x] => (x, None)
  | x :: _ => (x, Some RuntimeError)
  | [] => (current, Some RuntimeError)
  end.

Definition backend : Backend := {|
  Model := Z;
  Optim := Z;
  Sched := Z;
  Batch := float;
  Tensor := list float;
  Blob := list Z;
  model_train := fun m => m;
  model_eval := fun m => m;
  forward := fun _ b => [b];
  backward := fun _ m => m;
  optimizer_step := fun o m => (o + 1, m - 1);
  scheduler_step := fun s o => (s + 1, o);
  zero_grad := fun _ m => m;
  repeat_gather := fun t => (t ++ t)%list;
  torch_cat := fun ts => concat ts;
  torch_mean := mean;
  tensor_float := item;
  libm_exp := fun _ => float_one;
  unwrap_model := fun m => m;
  model_state_dict := fun m => [m];
  model_load_state_dict := load;
  optimizer_state_dict := fun o => [o];
  optimizer_load_state_dict := load;
  scheduler_state_dict := fun s => [s];
  scheduler_load_state_dict := load
|}.

Definition one_million : float := f64_of_Z 1000000.
Definition two : float := f64_of_Z 2.

Definition job (epochs : Z) (ckpt : option (gmap string pyval)) : JobConfig :=
  {| num_train_epochs := Some epochs; log_step := None;
     checkpoint := ckpt; output := None |}.

(** A trainer on rank 0 of 1 with the given loaders, fresh from
    [__init__] and [prepare]. *)
Definition trainer (cfg : JobConfig) (train_batches : list float)
    (eval_batches : option (list float)) (sched : option Z)
    (files : gmap string (directory (B := backend))) : world (B := backend) :=
  @Build_world backend cfg 0 1 train_batches eval_batches 100 0 sched 0 files.

Definition three : float := f64_of_Z 3.

Definition policy : gmap string pyval :=
  {[ "root_path"%string := PStr "ckpt"; "model_name"%string := PStr "m" ]}.

(** A policy that names no model, and one that names no root path. *)
Definition nameless_policy : gmap string pyval :=
  {[ "root_path"%string := PStr "ckpt" ]}.

Definition rootless_policy : gmap string pyval :=
  {[ "model_name"%string := PStr "m" ]}.

(** One epoch over two training and two evaluation batches. *)
Definition one_epoch : world (B := backend) :=
  trainer (job 1 None) [two; three] (Some [two; three]) None ∅.

(** A job of three epochs resumed at epoch 1, and one resumed after its
    last epoch. *)
Definition two_epochs : world (B := backend) :=
  set_starting_epoch 1
    (trainer (job 3 None) [two; three] (Some [two; three]) (Some 0) ∅).

Definition finished : world (B := backend) :=
  set_starting_epoch 3 (trainer (job 3 None) [two] None None ∅).

(** A job whose evaluation loss has diverged. *)
Definition diverged : world (B := backend) :=
  trainer (job 1 None) [two] (Some [one_million; two]) None ∅.

(** A trainer with nothing on disk. *)
Definition fresh : world (B := backend) :=
  trainer (job 8 (Some policy)) [two] None (Some 0) ∅.

(** A trainer after some training, and the trainer of a restarted job that
    finds what the first one saved at epoch 5. *)
Definition trained : world (B := backend) :=
  set_model (B := backend) 42
    (set_optimizer (B := backend) 9
       (set_lr_scheduler (B := backend) (Some 3) fresh)).

Definition restarted : world (B := backend) :=
  set_fs (fs (save (Some policy) 5 trained).1.2) fresh.

(** A record whose optimizer entry the optimizer rejects, and a trainer
    that finds it. *)
Definition broken_record : gmap string (ckval (B := backend)) :=
  {[ "epoch"%string := VPy (PInt 4);
     "model"%string := VBlob (B := backend) [7];
     "optimizer_state_dict"%string := VBlob (B := backend) [1; 2] ]}.

Definition interrupted : world (B := backend) :=
  set_fs {[ "ckpt/m_0-of-1"%string := Stored broken_record ]} fresh.

(** Two workers of one job of size [n], with nothing else to tell them
    apart. *)
Definition worker (r n : Z) : world (B := backend) :=
  @Build_world backend (job 1 None) r n [two] None 100 0 None 0 ∅.

(** A job with a log cadence of 0, and one whose training loss has
    diverged. *)
Definition silent : world (B := backend) :=
  trainer {| num_train_epochs := Some 2; log_step := Some 0;
             checkpoint := Some policy; output := None |}
    [two; three] None (Some 0) ∅.

Definition exploding : world (B := backend) :=
  trainer (job 2 (Some policy)) [one_million; two] None None ∅.

(** A job of three epochs with a checkpoint policy, an evaluation loader
    and no output path. *)
Definition checkpointed : world (B := backend) :=
  trainer {| num_train_epochs := Some 3; log_step := None;
             checkpoint := Some policy; output := Some None |}
    [two; three] (Some [three]) (Some 0) ∅.

(** The restarted trainer without a scheduler, and a trainer with a
    scheduler that finds the record of one without. *)
Definition unscheduled : world (B := backend) :=
  set_lr_scheduler (B := backend) None restarted.

Definition bare_record : gmap string (ckval (B := backend)) :=
  {[ "epoch"%string := VPy (PInt 4);
     "model"%string := VBlob (B := backend) [7];
     "optimizer_state_dict"%string := VBlob (B := backend) [1] ]}.

Definition rescheduled : world (B := backend) :=
  set_fs {[ "ckpt/m_0-of-1"%string := Stored bare_record ]} fresh.

(** The collaborators of [prepare] for the concrete backend: a tokenizer is
    its length, the one known data processor hands out the loaders that the
    dataset holds, the model has 8 embeddings and cannot grow, a scheduler
    is the number of training steps it was made for, and the accelerator is
    the index of the process with the number of processes and wraps
    nothing. *)
Definition workbench : Workbench (B := backend) :=
  @Build_Workbench backend
    Z (list float * option (list float)) (Z * Z) unit
    (fun v =>
       match v with
       | PStr s => if String.eqb s "GeneralProcesser" then Some (fun _ => tt)
                   else None
       | _ => None
       end)
    (fun _ _ ds => ds)
    (fun n => n)
    (fun _ => 8)
    (fun m _ => m)
    (fun _ _ _ steps =>
       match steps with
       | SInt n => Ok n
       | _ => Raise TypeError
       end)
    fst snd fst
    (fun _ m => m) (fun _ o => o) (fun _ s => s) (fun _ l => l).

(** A configuration of two epochs with a checkpoint policy and an enabled
    scheduler, one that names no data processor, and one without the
    section. *)
Definition settings : TrainerConfig :=
  {| job_keys := job 2 (Some policy);
     dataprocesser_config := Some {[ "type"%string := PStr "GeneralProcesser" ]};
     lr_scheduler_config := Some {[ "enable"%string := SBool true ]} |}.

Definition typeless_settings : TrainerConfig :=
  {| job_keys := job 2 None;
     dataprocesser_config := Some ∅;
     lr_scheduler_config := None |}.

Definition sectionless_settings : TrainerConfig :=
  {| job_keys := job 2 None;
     dataprocesser_config := None;
     lr_scheduler_config := None |}.

(** The trainer object that [__init__] makes of [settings]. *)
Definition built : instance (W := workbench) :=
  @Build_instance backend workbench settings tt 0.

(** The trainer that [prepare] makes of it on rank 0 of 1 over three
    training batches, with nothing on disk. *)
Definition prepared : world (B := backend) :=
  trainer (job 2 (Some policy)) [two; three; two] None (Some 6) ∅.


(** A configuration whose scheduler is switched off, the trainer object
    made of it, and a store with unreadable content at the path of the
    worker. *)
Definition plain_settings : TrainerConfig :=
  {| job_keys := job 2 (Some policy);
     dataprocesser_config := Some {[ "type"%string := PStr "GeneralProcesser" ]};
     lr_scheduler_config := Some {[ "enable"%string := SBool false ]} |}.

Definition plain : instance (W := workbench) :=
  @Build_instance backend workbench plain_settings tt 0.

Definition damaged : gmap string (directory (B := backend)) :=
  {[ "ckpt/m_0-of-1"%string := Unreadable ]}.


End Sample.

(** ** A backend under a wrapping accelerator

    The one-parameter model again, on a job of two processes, where the
    accelerator hands the model out inside a wrapper: the wrapper keys its
    state dictionary under its own prefix, as a data-parallel wrapper of the
    tensor engine does, and [unwrap_model] gives the model inside.  A state
    dictionary is a list of keys with integers, and every loader is strict:
    it takes a dictionary that holds exactly its own key and rejects any
    other. *)
Module Distributed.

Record net := { wrapped : bool; weight : Z }.

Definition key (m : net) : string :=
  if wrapped m then "module.weight"%string else "weight"%string.

Definition state_dict (m : net) : list (string * Z) := [(key m, weight m)].

Definition unwrap (m : net) : net := {| wrapped := false; weight := weight m |}.

Definition load_state_dict (m : net) (blob : list (string * Z))
    : net * option exn :=
  match blob with
  | [(k, v)] =>
      if String.eqb k (key m)
      then ({| wrapped := wrapped m; weight := v |}, None)
      else (m, Some RuntimeError)
  | _ => (m, Some RuntimeError)
  end.

(** The loader of an optimizer or a scheduler, whose one entry is [name]. *)
Definition load_entry (name : string) (current : Z) (blob : list (string * Z))
    : Z * option exn :=
  match blob with
  | [(k, v)] =>
      if String.eqb k name then (v, None) else (current, Some RuntimeError)
  | _ => (current, Some RuntimeError)
  end.

Definition backend : Backend := {|
  Model := net;
  Optim := Z;
  Sched := Z;
  Batch := float;
  Tensor := list float;
  Blob := list (string * Z);
  model_train := fun m => m;
  model_eval := fun m => m;
  forward := fun _ b => [b];
  backward := fun _ m => m;
  optimizer_step := fun o m =>
    (o + 1, {| wrapped := wrapped m; weight := weight m - 1 |});
  scheduler_step := fun s o => (s + 1, o);
  zero_grad := fun _ m => m;
  repeat_gather := fun t => (t ++ t)%list;
  torch_cat := fun ts => concat ts;
  torch_mean := Sample.mean;
  tensor_float := Sample.item;
  libm_exp := fun _ => float_one;
  unwrap_model := unwrap;
  model_state_dict := state_dict;
  model_load_state_dict := load_state_dict;
  optimizer_state_dict := fun o => [("step"%string, o)];
  optimizer_load_state_dict := load_entry "step";
  scheduler_state_dict := fun s => [("last_epoch"%string, s)];
  scheduler_load_state_dict := load_entry "last_epoch"
|}.

(** A trainer on rank 0 of 2 around the model [m], with the store
    [files]. *)
Definition trainer (m : net) (o : Z)
    (files : gmap string (directory (B := backend))) : world (B := backend) :=
  @Build_world backend (Sample.job 8 (Some Sample.policy)) 0 2
    [Sample.two] None m o None 0 files.

(** The wrapped trainer after some training, and the wrapped trainer of
    the restarted job, which finds what the first one saved at epoch 5. *)
Definition trained : world (B := backend) :=
  trainer {| wrapped := true; weight := 42 |} 9 ∅.

Definition restarted : world (B := backend) :=
  trainer {| wrapped := true; weight := 100 |} 0
    (fs (save (Some Sample.policy) 5 trained).1.2).

(** The same two trainers where the accelerator left the model as it
    was. *)
Definition trained_bare : world (B := backend) :=
  trainer {| wrapped := false; weight := 42 |} 9 ∅.

Definition restarted_bare : world (B := backend) :=
  trainer {| wrapped := false; weight := 100 |} 0
    (fs (save (Some Sample.policy) 5 trained_bare).1.2).

End Distributed.

(** * The model factory and the predictor

    [common/model/huggingface_model_from_config.py] and
    [llm_on_ray/inference/predictor.py]. *)

(** ** [HuggingFaceModelFromConfig.__call__] *)

(** What the factory calls in [transformers], [peft] and [deltatuner];
    keyword arguments are dictionaries over the values of the library. *)
Class Hub := {
  Value : Type;
  AutoConfig : Type;
  Net : Type;
  PeftConfig : Type;
  AutoConfig_from_pretrained : string -> gmap string Value -> result AutoConfig;
  AutoConfig_for_model : gmap string Value -> result AutoConfig;
  AutoModelForCausalLM_from_config : AutoConfig -> result Net;
  LoraConfig : gmap string Value -> result PeftConfig;
  get_peft_model : Net -> PeftConfig -> result Net;
  deltatuner_optimize : Net -> gmap string Value -> result Net
}.

Module Factory.

Section Call.

Context {H : Hub}.

(** A key of the configuration that is meant to hold a dictionary. *)
Inductive section :=
| Absent
| IsNone
| Dict (d : gmap string Value).

(** The keys of the configuration that [__call__] reads; [name] is [None]
    when the key is absent or holds [None]. *)
Record ModelConfig := {
  name : option string;
  config : section;
  lora_config : section;
  deltatuner_config : section
}.

Definition and_then {A C} (r : result A) (k : A -> result C) : result C :=
  match r with
  | Ok a => k a
  | Raise e => Raise e
  end.

(** [**d] in a call: only a mapping can be unpacked. *)
Definition unpack (s : option (gmap string Value))
    : result (gmap string Value) :=
  match s with
  | Some d => Ok d
  | None => Raise TypeError
  end.

(** [f(key=v, **d)]: a key given twice is rejected before the call. *)
Definition no_duplicate (key : string) (d : gmap string Value)
    : result unit :=
  match d !! key with
  | Some _ => Raise TypeError
  | None => Ok tt
  end.

(** [config.get(key, {})] and [config.get(key, None)]. *)
Definition get_or_empty (s : section) : option (gmap string Value) :=
  match s with
  | Absent => Some ∅
  | IsNone => None
  | Dict d => Some d
  end.

Definition get_or_None (s : section) : option (gmap string Value) :=
  match s with
  | Absent | IsNone => None
  | Dict d => Some d
  end.

(** The truth value of a dictionary or [None]. *)
Definition dict_truthy (s : option (gmap string Value)) : bool :=
  match s with
  | Some d => bool_decide (d <> ∅)
  | None => false
  end.

Definition __call__ (cfg : ModelConfig) : result Net :=
  let model_config := get_or_empty (config cfg) in
  and_then
    (match name cfg with
     | Some n =>
         and_then (unpack model_config) (fun kw =>
         and_then (no_duplicate "pretrained_model_name_or_path" kw) (fun _ =>
         AutoConfig_from_pretrained n kw))
     | None =>
         and_then (unpack model_config) AutoConfig_for_model
     end) (fun auto_config =>
  and_then (AutoModelForCausalLM_from_config auto_config) (fun model =>
  let lora_config := get_or_None (lora_config cfg) in
  if dict_truthy lora_config then
    and_then (and_then (unpack lora_config) LoraConfig) (fun peft_config =>
    and_then (get_peft_model model peft_config) (fun model =>
    let deltatuner_config := get_or_None (deltatuner_config cfg) in
    if dict_truthy deltatuner_config then
      and_then (unpack deltatuner_config) (deltatuner_optimize model)
    else Ok model))
  else Ok model)).

(** The configuration with another [deltatuner_config]. *)
Definition with_deltatuner (s : section) (cfg : ModelConfig) : ModelConfig :=
  {| name := name cfg; config := config cfg; lora_config := lora_config cfg;
     deltatuner_config := s |}.

End Call.

(** A hub whose models are the lists of the adapters put on them. *)
Definition hub : Hub :=
  {| Value := Z;
     AutoConfig := string;
     Net := list string;
     PeftConfig := unit;
     AutoConfig_from_pretrained := fun n _ => Ok n;
     AutoConfig_for_model := fun _ => Ok "scratch"%string;
     AutoModelForCausalLM_from_config := fun c => Ok [c];
     LoraConfig := fun _ => Ok tt;
     get_peft_model := fun m _ => Ok (m ++ ["lora"%string])%list;
     deltatuner_optimize := fun m _ => Ok (m ++ ["delta"%string])%list |}.

(** A configuration that gives the model name twice, and one that asks for
    the delta tuner without LoRA. *)
Definition twice_named : ModelConfig (H := hub) :=
  {| name := Some "gpt2"%string;
     config := Dict (H := hub) {[ "pretrained_model_name_or_path"%string := 1 ]};
     lora_config := Absent;
     deltatuner_config := Absent |}.

Definition delta_only : ModelConfig (H := hub) :=
  {| name := Some "gpt2"%string;
     config := Absent;
     lora_config := Dict (H := hub) ∅;
     deltatuner_config := Dict (H := hub) {[ "algo"%string := 1 ]} |}.

End Factory.


(** ** [Predictor.configure_tokenizer] *)

(** The tokenizer as the predictor uses it: its token ids and tokens are
    properties with a getter and a setter of the library, which need not
    store what they are given; [id_of_int] injects the literals. *)
Class TokenizerOps := {
  Tok : Type;
  Id : Type;
  id_of_int : Z -> Id;
  get_pad_token_id : Tok -> option Id;
  get_eos_token_id : Tok -> option Id;
  get_pad_token : Tok -> option string;
  get_eos_token : Tok -> option string;
  set_pad_token_id : option Id -> Tok -> Tok;
  set_eos_token_id : option Id -> Tok -> Tok;
  set_bos_token_id : option Id -> Tok -> Tok;
  set_pad_token : option string -> Tok -> Tok;
  set_padding_side : string -> Tok -> Tok
}.

Module Predictor.

(** [needle in hay]. *)
Fixpoint contains (needle hay : string) : bool :=
  String.prefix needle hay
  || match hay with
     | EmptyString => false
     | String _ hay' => contains needle hay'
     end.

Definition lower (c : Ascii.ascii) : Ascii.ascii :=
  let n := Ascii.nat_of_ascii c in
  if (Nat.leb 65 n && Nat.leb n 90)%bool then Ascii.ascii_of_nat (n + 32)
  else c.

Fixpoint lowercase (s : string) : string :=
  match s with
  | EmptyString => EmptyString
  | String c s' => String (lower c) (lowercase s')
  end.

(** [re.search(pattern, s, re.IGNORECASE)] for a pattern of lower-case
    letters that no character outside ASCII folds to, as ["llama"] is:
    whether it occurs in [s] up to the case of the letters. *)
Definition search_ignorecase (pattern s : string) : bool :=
  contains pattern (lowercase s).

(** What [configure_tokenizer] can raise. *)
Inductive error :=
| Exn (e : exn)
| IndexError.

Section Configure.

Context {T : TokenizerOps}.

(** [model.generation_config]: an attribute is absent ([None]), holds
    [None], or holds an id. *)
Record GenerationConfig := {
  pad_token_id : option (option Id);
  eos_token_id : option (option Id);
  bos_token_id : option (option Id)
}.

(** The model: the two attributes of [model.config] that are read, and the
    generation configuration. *)
Record Model := {
  architectures : option (list string);
  is_encoder_decoder : bool;
  generation_config : GenerationConfig
}.

Definition set_pad (v : option Id) (m : Model) : Model :=
  {| architectures := architectures m;
     is_encoder_decoder := is_encoder_decoder m;
     generation_config :=
       {| pad_token_id := Some v;
          eos_token_id := eos_token_id (generation_config m);
          bos_token_id := bos_token_id (generation_config m) |} |}.

Definition set_eos (v : option Id) (m : Model) : Model :=
  {| architectures := architectures m;
     is_encoder_decoder := is_encoder_decoder m;
     generation_config :=
       {| pad_token_id := pad_token_id (generation_config m);
          eos_token_id := Some v;
          bos_token_id := bos_token_id (generation_config m) |} |}.

Definition set_bos (v : option Id) (m : Model) : Model :=
  {| architectures := architectures m;
     is_encoder_decoder := is_encoder_decoder m;
     generation_config :=
       {| pad_token_id := pad_token_id (generation_config m);
          eos_token_id := eos_token_id (generation_config m);
          bos_token_id := Some v |} |}.

(** [hasattr(c, a) and c.a is not None]. *)
Definition holds_id (a : option (option Id)) : option Id :=
  match a with
  | Some (Some v) => Some v
  | _ => None
  end.

(** [self.model] and [self.tokenizer] are objects that the method updates
    in place; it returns nothing. *)
Definition configure_tokenizer (model_name : string) (self : Model * Tok)
    : error + Model * Tok :=
  let '(model, tokenizer) := self in
  match architectures model with
  | None => inl (Exn TypeError)
  | Some [] => inl IndexError
  | Some (architecture :: _) =>
      let model :=
        if search_ignorecase "llama" architecture
        then set_eos (Some (id_of_int 2))
               (set_bos (Some (id_of_int 1))
                  (set_pad (Some (id_of_int 0)) model))
        else model in
      let tokenizer :=
        match holds_id (pad_token_id (generation_config model)) with
        | Some v =>
            if negb (contains "chatglm" model_name)
            then set_pad_token_id (Some v) tokenizer
            else tokenizer
        | None => tokenizer
        end in
      let tokenizer :=
        match holds_id (eos_token_id (generation_config model)) with
        | Some v =>
            if negb (contains "chatglm" model_name)
            then set_eos_token_id (Some v) tokenizer
            else tokenizer
        | None => tokenizer
        end in
      let tokenizer :=
        match holds_id (bos_token_id (generation_config model)) with
        | Some v => set_bos_token_id (Some v) tokenizer
        | None => tokenizer
        end in
      let '(model, tokenizer) :=
        match get_pad_token_id tokenizer with
        | None =>
            let v := get_eos_token_id tokenizer in
            (set_pad v model, set_pad_token_id v tokenizer)
        | Some _ => (model, tokenizer)
        end in
      match eos_token_id (generation_config model) with
      | None => inl (Exn AttributeError)
      | Some eos =>
          let model :=
            match eos with
            | None => set_eos (get_eos_token_id tokenizer) model
            | Some _ => model
            end in
          let tokenizer :=
            if negb (is_encoder_decoder model)
            then set_padding_side "left" tokenizer
            else tokenizer in
          match get_pad_token tokenizer, get_pad_token_id tokenizer with
          | None, None =>
              let tokenizer := set_pad_token (get_eos_token tokenizer) tokenizer in
              match eos_token_id (generation_config model) with
              | None => inl (Exn AttributeError)
              | Some v => inr (set_pad v model, tokenizer)
              end
          | _, _ => inr (model, tokenizer)
          end
      end
  end.

End Configure.

(** A tokenizer that stores what it is given: the ids of the pad, end and
    begin tokens, the pad and end tokens, and the padding side. *)
Record slots := {
  pad_id : option Z;
  eos_id : option Z;
  bos_id : option Z;
  pad : option string;
  eos : option string;
  side : string
}.

Definition plain : TokenizerOps :=
  {| Tok := slots;
     Id := Z;
     id_of_int := fun z => z;
     get_pad_token_id := pad_id;
     get_eos_token_id := eos_id;
     get_pad_token := pad;
     get_eos_token := eos;
     set_pad_token_id := fun v t =>
       {| pad_id := v; eos_id := eos_id t; bos_id := bos_id t; pad := pad t;
          eos := eos t; side := side t |};
     set_eos_token_id := fun v t =>
       {| pad_id := pad_id t; eos_id := v; bos_id := bos_id t; pad := pad t;
          eos := eos t; side := side t |};
     set_bos_token_id := fun v t =>
       {| pad_id := pad_id t; eos_id := eos_id t; bos_id := v; pad := pad t;
          eos := eos t; side := side t |};
     set_pad_token := fun v t =>
       {| pad_id := pad_id t; eos_id := eos_id t; bos_id := bos_id t; pad := v;
          eos := eos t; side := side t |};
     set_padding_side := fun v t =>
       {| pad_id := pad_id t; eos_id := eos_id t; bos_id := bos_id t;
          pad := pad t; eos := eos t; side := v |} |}.

(** A tokenizer without a pad token, a Llama model with an empty generation
    configuration, and a model of another architecture whose generation
    configuration lacks the end-of-sequence attribute. *)
Definition unpadded : slots :=
  {| pad_id := None; eos_id := Some 7; bos_id := None; pad := None;
     eos := Some "</s>"%string; side := "right"%string |}.

Definition llama : Model (T := plain) :=
  {| architectures := Some ["LlamaForCausalLM"%string];
     is_encoder_decoder := false;
     generation_config :=
       {| pad_token_id := None; eos_token_id := None; bos_token_id := None |} |}.

Definition bare : Model (T := plain) :=
  {| architectures := Some ["GPT2LMHeadModel"%string];
     is_encoder_decoder := false;
     generation_config :=
       {| pad_token_id := Some None; eos_token_id := None;
          bos_token_id := Some None |} |}.

End Predictor.


(** * Observations on runs *)

Section Observations.

Context {B : Backend}.

(** ** Paths and saved records *)

(** The path [recovery] and [save] derive from a policy dictionary. *)
Definition policy_path (self : world) (d : gmap string pyval) : string :=
  _get_local_path self (default PNone (d !! "root_path"%string))
    (default (PStr "") (d !! "model_name"%string)).

(** The dictionary [save] writes for [epoch]. *)
Definition saved_status (self : world) (epoch : Z) : gmap string ckval :=
  let status : gmap string ckval :=
    <["optimizer_state_dict"%string :=
        VBlob (optimizer_state_dict (optimizer self))]>
      (<["model"%string :=
           VBlob (model_state_dict (unwrap_model (model self)))]>
         (<["epoch"%string := VPy (PInt epoch)]> ∅)) in
  match lr_scheduler self with
  | Some s => <["lr_scheduler"%string := VBlob (scheduler_state_dict s)]> status
  | None => status
  end.

(** The warning of the root-path guard, when it fires. *)
Definition root_path_warning (d : gmap string pyval) : list event :=
  if is_None (default PNone (d !! "root_path"%string))
  then [LogWarning "checkpoint root_path is empty, skip"]
  else [].

(** A phase of the loop, as its opening log line announces it. *)
Inductive phase :=
| TrainPhase (idx : Z)
| EvalPhase (idx : Z).

Definition phase_of (e : event) : option phase :=
  match e with
  | LogInfo (StartTrainEpoch idx) => Some (TrainPhase idx)
  | LogInfo (StartEvalEpoch idx) => Some (EvalPhase idx)
  | _ => None
  end.

(** The phases a trace went through, in order. *)
Definition phases (t : list event) : list phase := omap phase_of t.

(** The phases of one epoch. *)
Definition epoch_phases (with_eval : bool) (idx : Z) : list phase :=
  TrainPhase idx :: (if with_eval then [EvalPhase idx] else []).

Definition batch_of (e : event) : option Batch :=
  match e with
  | Forward b => Some b
  | _ => None
  end.

(** The batches a trace ran the model on, in order. *)
Definition forwarded (t : list event) : list Batch := omap batch_of t.

(** The start of a training step and the three operations that end it. *)
Definition is_step_op (e : event) : bool :=
  match e with
  | Accumulate | OptimizerStep | SchedulerStep | ZeroGrad => true
  | _ => false
  end.

Definition step_ops (t : list event) : list event := List.filter is_step_op t.

(** What one training step shows of them. *)
Definition step_pattern (with_scheduler : bool) : list event :=
  (Accumulate :: OptimizerStep
     :: (if with_scheduler then [SchedulerStep] else []) ++ [ZeroGrad])%list.

(** A trace whose training steps all show that pattern, one after the
    other. *)
Definition ordered (with_scheduler : bool) (t : list event) : Prop :=
  exists k : nat,
    step_ops t = concat (replicate k (step_pattern with_scheduler)).

Definition has_scheduler (w : world) : bool :=
  match lr_scheduler w with
  | Some _ => true
  | None => false
  end.

Definition is_write (e : event) : bool :=
  match e with
  | CheckpointWrite _ _ => true
  | _ => false
  end.

(** No loss on a training batch lies beyond the range of [math.exp],
    whatever the parameters of the model. *)
Definition losses_in_exp_range (w : world) : Prop :=
  forall m b, b ∈ train_dataloader w ->
    math_exp libm_exp (tensor_float (forward m b)) <> Raise OverflowError.

(** The parts of the trainer that [train] reads and never assigns. *)
Definition same_job (w w' : world) : Prop :=
  config w' = config w /\
  train_dataloader w' = train_dataloader w /\
  eval_dataloader w' = eval_dataloader w /\
  starting_epoch w' = starting_epoch w.

(** [m] returns [a] from [w], leaves the job as it was and goes through
    the phases [ph]. *)
Definition returns {A} (m : Py A) (w : world) (a : A) (ph : list phase)
    : Prop :=
  exists w' t, m w = (Ok a, w', t) /\ same_job w w' /\ phases t = ph.

(** What the evaluation phase logs for the concatenated [losses]: the mean
    and its exponential, or infinity twice when [math.exp] overflows. *)
Definition eval_result (losses : Tensor) : (Tensor + float) * float :=
  match math_exp libm_exp (tensor_float (torch_mean losses)) with
  | Ok perplexity => (inl (torch_mean losses), perplexity)
  | Raise _ => (inr float_inf, float_inf)
  end.

(** The contract of [load_state_dict] in the tensor engine: an object
    accepts the state dictionary that its own [state_dict] produced, and
    then holds that state. *)
Definition own_state_loadable : Prop :=
  (forall m, exists m',
     model_load_state_dict m (model_state_dict m) = (m', None) /\
     model_state_dict m' = model_state_dict m) /\
  (forall o, exists o',
     optimizer_load_state_dict o (optimizer_state_dict o) = (o', None) /\
     optimizer_state_dict o' = optimizer_state_dict o) /\
  (forall s, exists s',
     scheduler_load_state_dict s (scheduler_state_dict s) = (s', None)).

(** What [recovery] needs of the loaders to take in what [save] stored: the
    prepared model accepts the state dictionary of an unwrapped model, and
    the model inside then holds that state; optimizer and scheduler accept
    the state dictionaries of their kind.  The first part holds when the
    accelerator hands the model out unwrapped, and fails for a wrapper that
    keys its state dictionary differently from the model inside. *)
Definition saved_state_loadable : Prop :=
  (forall m m0, exists m',
     model_load_state_dict m (model_state_dict (unwrap_model m0))
     = (m', None) /\
     model_state_dict (unwrap_model m')
     = model_state_dict (unwrap_model m0)) /\
  (forall o o0, exists o',
     optimizer_load_state_dict o (optimizer_state_dict o0) = (o', None) /\
     optimizer_state_dict o' = optimizer_state_dict o0) /\
  (forall s s0, exists s',
     scheduler_load_state_dict s (scheduler_state_dict s0) = (s', None)).

(** [m] keeps [P] on the trainer and emits a trace in [Q], whether it
    returns or raises. *)
Definition preserves {A} (P : world -> Prop) (Q : list event -> Prop)
    (m : Py A) : Prop :=
  forall w, P w -> P (m w).1.2 /\ Q (m w).2.

(** ** Milestones of a job *)

(** What the other workers and the disk see of a run: the phases, the
    checkpoint writes with the epoch they record, the barriers and the final
    model save. *)
Inductive milestone :=
| Phase (p : phase)
| Checkpoint (path : string) (epoch : option ckval)
| Barrier
| ModelSave (out : string).

Definition milestone_of (e : event) : option milestone :=
  match e with
  | CheckpointWrite path d => Some (Checkpoint path (d !! "epoch"%string))
  | WaitForEveryone => Some Barrier
  | SavePretrained out => Some (ModelSave out)
  | _ => Phase <$> phase_of e
  end.

Definition milestones (t : list event) : list milestone := omap milestone_of t.

(** The milestones of epoch [idx] on the trainer [w]. *)
Definition epoch_milestones (w : world) (idx : Z) : list milestone :=
  ((Phase <$> epoch_phases (loader_truthy (eval_dataloader w)) idx)
   ++ match checkpoint (config w) with
      | Some d => [Checkpoint (policy_path w d) (Some (VPy (PInt idx)))]
      | None => []
      end
   ++ [Barrier])%list.

(** The milestones after the last epoch. *)
Definition final_milestones (w : world) : list milestone :=
  match default (Some "./output"%string) (output (config w)) with
  | Some out => [ModelSave out; Barrier]
  | None => [Barrier]
  end.

(** The first training batch, if there is one, can be stepped on: the log
    cadence is not zero and the loss is within the range of [math.exp]. *)
Definition first_step_safe (w : world) : Prop :=
  match train_dataloader w with
  | [] => True
  | b :: _ =>
      default 1 (log_step (config w)) <> 0 /\
      forall m, math_exp libm_exp (tensor_float (forward m b))
                <> Raise OverflowError
  end.

(** The parts of the trainer that [train] leaves alone or keeps in kind: the
    job, the identity of the worker, and whether there is a scheduler. *)
Definition same_worker (w w' : world) : Prop :=
  same_job w w' /\ rank w' = rank w /\ size w' = size w /\
  has_scheduler w' = has_scheduler w.

(** [m] returns [a] from [w] in the trainer [w'], past the milestones
    [ms]. *)
Definition reaches {A} (m : Py A) (w : world) (a : A) (ms : list milestone)
    (w' : world) : Prop :=
  exists t, m w = (Ok a, w', t) /\ milestones t = ms.


End Observations.

(** * Observations on [prepare] *)

Section Prepared.

Context {B : Backend} {W : Workbench}.

(** Whether the configuration asks for a scheduler. *)
Definition scheduler_enabled (cfg : TrainerConfig) : bool :=
  match lr_scheduler_config cfg with
  | Some c => truthy (default (SBool false) (c !! "enable"%string))
  | None => false
  end.

(** The scheduler that [prepare] plans, from the loader that the data
    processor hands out. *)
Definition planned_scheduler (self : instance) (tokenizer : Tokenizer)
    (dataset : Dataset) (optimizer : Optim) (accelerator : Accelerator)
    : result (option Sched) :=
  match lr_scheduler_config (self_config self) with
  | Some c =>
      if bool_decide (c <> ∅) then
        _get_lr_scheduler c optimizer
          (default 1 (num_train_epochs (job_keys (self_config self))))
          (Z.of_nat
             (length (dataprocesser_prepare (self_dataprocesser self)
                        tokenizer dataset).1))
          accelerator
      else Ok None
  | None => Ok None
  end.

(** The trainer that [prepare] assembles around the scheduler [sched],
    before it looks for a checkpoint. *)
Definition assembled (self : instance) (model : Model) (tokenizer : Tokenizer)
    (dataset : Dataset) (optimizer : Optim) (accelerator : Accelerator)
    (sched : option Sched) (files : gmap string directory) : world :=
  assemble self
    (if tokenizer_len tokenizer >? embedding_size model
     then resize_token_embeddings model (tokenizer_len tokenizer)
     else model)
    optimizer accelerator (process_index accelerator)
    (num_processes accelerator)
    (dataprocesser_prepare (self_dataprocesser self) tokenizer dataset).1
    (dataprocesser_prepare (self_dataprocesser self) tokenizer dataset).2
    sched files.

End Prepared.


(** * Properties *)

Section Properties.

Context {B : Backend}.

(** ** The monad *)

Lemma bind_ok {A C} (m : Py A) (k : A -> Py C) w a w1 t1 :
  m w = (Ok a, w1, t1) ->
  bind m k w = (let '(r, w2, t2) := k a w1 in (r, w2, (t1 ++ t2)%list)).
Proof. intros H. unfold bind. rewrite H. reflexivity. Qed.

Lemma bind_raise {A C} (m : Py A) (k : A -> Py C) w e w1 t1 :
  m w = (Raise e, w1, t1) -> bind m k w = (Raise e, w1, t1).
Proof. intros H. unfold bind. rewrite H. reflexivity. Qed.

Lemma bind_ret_l {A C} (a : A) (k : A -> Py C) w : bind (ret a) k w = k a w.
Proof. unfold bind, ret. destruct (k a w) as [[r w2] t2]. reflexivity. Qed.

Lemma bind_get {C} (k : world -> Py C) w : bind get k w = k w w.
Proof. unfold bind, get. destruct (k w w) as [[r w2] t2]. reflexivity. Qed.

Lemma bind_modify {C} (f : world -> world) (k : unit -> Py C) w :
  bind (modify f) k w = k tt (f w).
Proof.
  unfold bind, modify. destruct (k tt (f w)) as [[r w2] t2]. reflexivity.
Qed.

Lemma bind_emit {C} (ev : event) (k : unit -> Py C) w :
  bind (emit ev) k w = (let '(r, w2, t2) := k tt w in (r, w2, ev :: t2)).
Proof. reflexivity. Qed.

Lemma bind_lift_ok {A C} (a : A) (k : A -> Py C) w :
  bind (lift (Ok a)) k w = k a w.
Proof. unfold bind, lift. destruct (k a w) as [[r w2] t2]. reflexivity. Qed.

Lemma bind_lift_raise {A C} (e : exn) (k : A -> Py C) w :
  bind (lift (Raise e)) k w = (Raise e, w, []).
Proof. reflexivity. Qed.

Lemma range_empty start stop : stop <= start -> range start stop = [].
Proof.
  intros H. unfold range.
  replace (Z.to_nat (stop - start)) with 0%nat by lia. reflexivity.
Qed.

Lemma range_cons start stop :
  start < stop -> range start stop = start :: range (start + 1) stop.
Proof.
  intros H. unfold range.
  replace (Z.to_nat (stop - start)) with (S (Z.to_nat (stop - (start + 1))))
    by lia.
  cbn [seq fmap list_fmap]. f_equal; [lia|].
  rewrite <- seq_shift, <- list_fmap_compose.
  apply list_fmap_ext. intros _ i _. cbn. lia.
Qed.

Lemma length_range start stop :
  length (range start stop) = Z.to_nat (stop - start).
Proof. unfold range. rewrite length_fmap, length_seq. reflexivity. Qed.

(** ** Invariants of runs *)

Section Preserves.

Variable P : world -> Prop.
Variable Q : list event -> Prop.
Hypothesis Q_nil : Q [].
Hypothesis Q_app : forall t1 t2, Q t1 -> Q t2 -> Q (t1 ++ t2)%list.

Lemma preserves_ret {A} (a : A) : preserves P Q (ret a).
Proof. intros w Hw. split; [exact Hw | exact Q_nil]. Qed.

Lemma preserves_lift {A} (r : result A) : preserves P Q (lift r).
Proof. intros w Hw. split; [exact Hw | exact Q_nil]. Qed.

Lemma preserves_emit (ev : event) : Q [ev] -> preserves P Q (emit ev).
Proof. intros Hev w Hw. split; [exact Hw | exact Hev]. Qed.

Lemma preserves_modify (f : world -> world) :
  (forall w, P w -> P (f w)) -> preserves P Q (modify f).
Proof. intros Hf w Hw. split; [exact (Hf w Hw) | exact Q_nil]. Qed.

Lemma preserves_bind {A C} (m : Py A) (k : A -> Py C) :
  preserves P Q m -> (forall a, preserves P Q (k a)) ->
  preserves P Q (bind m k).
Proof.
  intros Hm Hk w Hw. unfold bind.
  specialize (Hm w Hw). destruct (m w) as [[r w1] t1]. cbn in Hm.
  destruct Hm as [Hw1 Ht1]. destruct r as [a|e]; [|split; assumption].
  specialize (Hk a w1 Hw1). destruct (k a w1) as [[r2 w2] t2]. cbn in *.
  destruct Hk as [Hw2 Ht2]. split; [exact Hw2 | exact (Q_app _ _ Ht1 Ht2)].
Qed.

(** The continuation of [get] is run on the world it was handed. *)
Lemma preserves_bind_get {C} (k : world -> Py C) :
  (forall w, P w -> P (k w w).1.2 /\ Q (k w w).2) ->
  preserves P Q (bind get k).
Proof. intros Hk w Hw. rewrite bind_get. exact (Hk w Hw). Qed.

Lemma preserves_try_except {A} (body : Py A) (catches : exn -> bool)
    (handler : exn -> Py A) :
  preserves P Q body -> (forall e, preserves P Q (handler e)) ->
  preserves P Q (try_except body catches handler).
Proof.
  intros Hb Hh w Hw. unfold try_except.
  specialize (Hb w Hw). destruct (body w) as [[r w1] t1]. cbn in Hb.
  destruct Hb as [Hw1 Ht1]. destruct r as [a|e]; [split; assumption|].
  destruct (catches e); [|split; assumption].
  specialize (Hh e w1 Hw1). destruct (handler e w1) as [[r2 w2] t2]. cbn in *.
  destruct Hh as [Hw2 Ht2]. split; [exact Hw2 | exact (Q_app _ _ Ht1 Ht2)].
Qed.

Lemma preserves_for_each {A S} (body : A -> S -> Py (ctrl * S)) :
  (forall x s, preserves P Q (body x s)) ->
  forall l s, preserves P Q (for_each body l s).
Proof.
  intros Hbody l. induction l as [|x l IH]; intros s; cbn [for_each].
  - apply preserves_ret.
  - apply preserves_bind; [apply Hbody|].
    intros [[|] s']; [apply IH | apply preserves_ret].
Qed.

End Preserves.

(** ** The order of operations in a training step *)

Lemma ordered_nil b : ordered b [].
Proof. exists 0%nat. reflexivity. Qed.

Lemma ordered_app b t1 t2 :
  ordered b t1 -> ordered b t2 -> ordered b (t1 ++ t2)%list.
Proof.
  intros [k1 H1] [k2 H2]. exists (k1 + k2)%nat.
  unfold step_ops in *. rewrite List.filter_app, H1, H2.
  rewrite replicate_add, concat_app. reflexivity.
Qed.

Lemma ordered_quiet b ev : is_step_op ev = false -> ordered b [ev].
Proof. intros H. exists 0%nat. unfold step_ops. cbn. rewrite H. reflexivity. Qed.

(** Case analysis on the collaborator results a run depends on. *)
Ltac run_step :=
  match goal with
  | |- context [optimizer_step ?o ?m] => destruct (optimizer_step o m) eqn:?
  | |- context [scheduler_step ?s ?o] => destruct (scheduler_step s o) eqn:?
  | |- context [lr_scheduler ?w] => is_var w; destruct (lr_scheduler w) eqn:?
  | |- context [py_mod ?a ?b] => destruct (py_mod a b) eqn:?
  | |- context [math_exp ?f ?x] => destruct (math_exp f x) eqn:?
  | |- context [Z.eqb ?a ?b] => destruct (Z.eqb a b) eqn:?
  end.

Ltac run := cbn; repeat (run_step; cbn).

Lemma train_batch_ordered b idx ls sb u :
  preserves (fun w => has_scheduler w = b) (ordered b)
    (train_batch idx ls sb u).
Proof.
  intros w Hw. subst b. destruct sb as [step batch].
  unfold train_batch, call_forward, call_backward, call_optimizer_step,
    call_zero_grad, call_scheduler_step, has_scheduler.
  run; try congruence.
  all: split; [reflexivity | exists 1%nat; reflexivity].
Qed.

(** ** [save] *)

(** [save] on a dictionary never stops early: whatever keys the policy
    holds, it writes the record at the derived path. *)
Lemma save_dict (d : gmap string pyval) (epoch : Z) (w : world) :
  save (Some d) epoch w =
    (Ok tt,
     set_fs (<[policy_path w d := Stored (saved_status w epoch)]> (fs w)) w,
     (root_path_warning d ++
      [LogInfo (SaveCheckpointTo (policy_path w d));
       CheckpointWrite (policy_path w d) (saved_status w epoch);
       LogInfo SaveCheckpointFinish])%list).
Proof.
  unfold save, root_path_warning, policy_path, saved_status.
  cbn. destruct (is_None (default PNone (d !! "root_path"%string)));
    cbn; destruct (lr_scheduler w); reflexivity.
Qed.

(** C9. With [None] as the checkpoint policy both [recovery] and [save] log
    the empty-policy warning and then raise [AttributeError] from the first
    [config.get]: the guard does not return, and its comparison with a fresh
    dictionary is false for every dictionary. *)
Theorem recovery_and_save_raise_on_None (w : world) (epoch : Z) :
  recovery None w
    = (Raise AttributeError, w, [LogWarning "checkpoint is empty, skip"]) /\
  save None epoch w
    = (Raise AttributeError, w, [LogWarning "checkpoint is empty, skip"]) /\
  (forall d, config_is_empty (Some d) = false).
Proof. repeat split. Qed.

(** ** [train]: the end of the job *)

(** What [finalize] emits: the model save when an output path is set, which
    it is unless the configuration holds [output: None], then the barrier. *)
Lemma finalize_run (w : world) :
  finalize w =
    (Ok tt, w,
     match default (Some "./output"%string) (output (config w)) with
     | Some out =>
         [LogInfo (StartSaveModel out); SavePretrained out;
          LogInfo (FinishSaveModel out); WaitForEveryone]
     | None => [WaitForEveryone]
     end).
Proof.
  unfold finalize. cbn.
  destruct (default (Some "./output"%string) (output (config w))); reflexivity.
Qed.

(** C10. When the starting epoch has reached the number of epochs, [train]
    runs no epoch: it returns with the trainer unchanged, and its trace is
    the final model save (for the default output path or a configured one)
    followed by one barrier. *)
Theorem train_without_epochs (w : world) :
  default 1 (num_train_epochs (config w)) <= starting_epoch w ->
  train w =
    (Ok tt, w,
     match default (Some "./output"%string) (output (config w)) with
     | Some out =>
         [LogInfo (StartSaveModel out); SavePretrained out;
          LogInfo (FinishSaveModel out); WaitForEveryone]
     | None => [WaitForEveryone]
     end) /\
  (output (config w) = None ->
   (train w).2 =
     [LogInfo (StartSaveModel "./output"); SavePretrained "./output";
      LogInfo (FinishSaveModel "./output"); WaitForEveryone]).
Proof.
  intros H.
  assert (E : train w = finalize w).
  { unfold train. rewrite bind_get, (range_empty _ _ H).
    cbn [for_each]. exact (bind_ret_l tt (fun _ => finalize) w). }
  rewrite E, finalize_run. split; [reflexivity|].
  intros Hout. rewrite Hout. reflexivity.
Qed.

Lemma preserves_get (P : world -> Prop) (Q : list event -> Prop) :
  Q [] -> preserves P Q get.
Proof. intros Hnil w Hw. split; [exact Hw | exact Hnil]. Qed.

Lemma preserves_when (P : world -> Prop) (Q : list event -> Prop) c m :
  Q [] -> preserves P Q m -> preserves P Q (when c m).
Proof. intros Hnil Hm. destruct c; [exact Hm | apply preserves_ret, Hnil]. Qed.

(** Structural rules for [preserves], given the proofs that the trace
    predicate holds of the empty trace, of concatenations and of single
    events. *)
Ltac pres nil app ev :=
  repeat (intros; first
    [ apply preserves_bind; [apply app | | ]
    | apply preserves_for_each; [apply nil | apply app | ]
    | apply preserves_try_except; [apply app | | ]
    | apply preserves_ret; apply nil
    | apply preserves_lift; apply nil
    | apply preserves_get; apply nil
    | apply preserves_emit; ev
    | apply preserves_modify; [apply nil | cbn; intros ? Hx; exact Hx]
    | apply preserves_when; [apply nil | ] ]).

Ltac pres_ordered :=
  pres ordered_nil ordered_app ltac:(apply ordered_quiet; reflexivity).

(** One training step shows exactly the pattern, whatever its outcome. *)
Lemma train_batch_step_ops idx ls step batch u w :
  step_ops (train_batch idx ls (step, batch) u w).2
  = step_pattern (has_scheduler w).
Proof.
  unfold train_batch, call_forward, call_backward, call_optimizer_step,
    call_zero_grad, call_scheduler_step, has_scheduler.
  run; try congruence; reflexivity.
Qed.

Lemma train_phase_ordered b idx ls :
  preserves (fun w => has_scheduler w = b) (ordered b) (train_phase idx ls).
Proof.
  unfold train_phase. pres_ordered. apply train_batch_ordered.
Qed.

Lemma eval_batch_ordered b sb losses :
  preserves (fun w => has_scheduler w = b) (ordered b) (eval_batch sb losses).
Proof.
  destruct sb as [step batch]. unfold eval_batch, call_forward.
  destruct (step =? 0); pres_ordered.
Qed.

Lemma eval_phase_ordered b idx :
  preserves (fun w => has_scheduler w = b) (ordered b) (eval_phase idx).
Proof.
  unfold eval_phase, eval_metrics.
  pres_ordered. apply eval_batch_ordered.
Qed.

Lemma save_ordered b c epoch :
  preserves (fun w => has_scheduler w = b) (ordered b) (save (Some c) epoch).
Proof.
  intros w Hw. rewrite save_dict. split; [exact Hw|].
  exists 0%nat. unfold root_path_warning.
  destruct (is_None _); reflexivity.
Qed.

Lemma epoch_body_ordered b ls ck idx u :
  preserves (fun w => has_scheduler w = b) (ordered b)
    (epoch_body ls ck idx u).
Proof.
  unfold epoch_body.
  apply preserves_bind;
    [apply ordered_app | apply train_phase_ordered | intros _].
  apply preserves_bind;
    [apply ordered_app | apply eval_phase_ordered | intros _].
  apply preserves_bind; [apply ordered_app | | intros _; pres_ordered].
  destruct ck; [apply save_ordered | apply preserves_ret, ordered_nil].
Qed.

Lemma finalize_ordered b :
  preserves (fun w => has_scheduler w = b) (ordered b) finalize.
Proof.
  intros w Hw. rewrite finalize_run. split; [exact Hw|].
  exists 0%nat. destruct (default _ _); reflexivity.
Qed.

(** C7. In every run of [train], finished or interrupted by an exception,
    the training steps show one fixed pattern, one step after the other: the
    optimizer step, then the scheduler step exactly when a scheduler is
    present, then the gradient clear.  A single step shows the pattern
    once. *)
Theorem training_steps_ordered (w : world) :
  ordered (has_scheduler w) (train w).2 /\
  (forall idx ls step batch u,
     step_ops (train_batch idx ls (step, batch) u w).2
     = (Accumulate :: OptimizerStep
          :: (if has_scheduler w then [SchedulerStep] else [])
          ++ [ZeroGrad])%list).
Proof.
  split; [|intros; apply train_batch_step_ops].
  assert (H : preserves (fun w0 => has_scheduler w0 = has_scheduler w)
                (ordered (has_scheduler w)) train).
  { unfold train.
    apply preserves_bind;
      [apply ordered_app | apply preserves_get, ordered_nil | intros w0].
    apply preserves_bind;
      [apply ordered_app | | intros _; apply finalize_ordered].
    apply preserves_for_each;
      [apply ordered_nil | apply ordered_app | intros; apply epoch_body_ordered]. }
  exact (proj2 (H w eq_refl)).
Qed.

(** ** The batch loops *)

Lemma math_exp_raise f x e : math_exp f x = Raise e -> e = OverflowError.
Proof.
  unfold math_exp. destruct x as [s|s| |s m ex]; try destruct s;
    try discriminate; destruct (SFltb _ _); congruence.
Qed.

Ltac unfold_step :=
  unfold train_batch, eval_batch, call_forward, call_backward,
    call_optimizer_step, call_zero_grad, call_scheduler_step.

(** A step that returns from batch 0 returns [break]. *)
Lemma train_batch_zero_breaks idx ls batch u w c u' w' t :
  train_batch idx ls (0, batch) u w = (Ok (c, u'), w', t) -> c = Break.
Proof. unfold_step. run; congruence. Qed.

(** The training loop runs its body on the first batch and on no other. *)
Lemma train_loop_first_only idx ls b rest w :
  for_each (train_batch idx ls) (enumerate (b :: rest)) tt w =
    (let '(r, w', t) := train_batch idx ls (0, b) tt w in
     (match r with Ok _ => Ok tt | Raise e => Raise e end, w', t)).
Proof.
  cbn [enumerate enumerate_from for_each]. unfold bind.
  destruct (train_batch idx ls (0, b) tt w) as [[r w'] t] eqn:E.
  destruct r as [[c []]|e]; [|reflexivity].
  rewrite (train_batch_zero_breaks _ _ _ _ _ _ _ _ _ E).
  cbn. rewrite app_nil_r. reflexivity.
Qed.

Lemma train_batch_forwarded idx ls step batch u w :
  forwarded (train_batch idx ls (step, batch) u w).2 = [batch].
Proof. unfold_step. run; reflexivity. Qed.

(** The evaluation loop likewise: one forward pass, on the first batch. *)
Lemma eval_loop_first_only b rest w :
  for_each eval_batch (enumerate (b :: rest)) [] w =
    (Ok [repeat_gather (forward (model w) b)], w,
     [Forward b; GatherForMetrics]).
Proof. reflexivity. Qed.

Lemma eval_metrics_run losses w :
  eval_metrics losses w = (Ok (eval_result losses), w, []).
Proof.
  unfold eval_metrics, eval_result, try_except, bind, lift.
  destruct (math_exp _ _) as [p|e] eqn:E; [reflexivity|].
  rewrite (math_exp_raise _ _ _ E). reflexivity.
Qed.

(** The evaluation phase never raises; it runs when the loader is truthy,
    and then on the first batch only. *)
Lemma eval_phase_run idx w :
  eval_phase idx w =
    match eval_dataloader w with
    | Some (b :: _) =>
        let w' := set_model (model_eval (model w)) w in
        let m := eval_result
                   (torch_cat [repeat_gather (forward (model w') b)]) in
        (Ok tt, w',
         [LogInfo (StartEvalEpoch idx); ModelEval; Forward b;
          GatherForMetrics; LogInfo (EvalEpoch idx m.1 m.2)])
    | _ => (Ok tt, w, [])
    end.
Proof.
  unfold eval_phase. rewrite bind_get.
  destruct (eval_dataloader w) as [[|b rest]|] eqn:E; cbn [loader_truthy];
    try reflexivity.
  rewrite bind_emit, bind_emit, bind_modify. cbn [default].
  rewrite (bind_ok _ _ _ _ _ _ (eval_loop_first_only b rest _)).
  rewrite (bind_ok _ _ _ _ _ _ (eval_metrics_run _ _)).
  reflexivity.
Qed.

(** ** Runs that return *)

Lemma same_job_refl w : same_job w w.
Proof. repeat split. Qed.

Lemma same_job_trans w1 w2 w3 :
  same_job w1 w2 -> same_job w2 w3 -> same_job w1 w3.
Proof. unfold same_job. intros (?&?&?&?) (?&?&?&?). repeat split; congruence. Qed.

Lemma phases_app t1 t2 : phases (t1 ++ t2) = (phases t1 ++ phases t2)%list.
Proof. apply omap_app. Qed.

Lemma returns_bind {A C} (m : Py A) (k : A -> Py C) w a c ph1 ph2 :
  returns m w a ph1 ->
  (forall w', same_job w w' -> returns (k a) w' c ph2) ->
  returns (bind m k) w c (ph1 ++ ph2).
Proof.
  intros (w1 & t1 & E1 & J1 & P1) Hk.
  destruct (Hk w1 J1) as (w2 & t2 & E2 & J2 & P2).
  exists w2, (t1 ++ t2)%list. rewrite (bind_ok _ _ _ _ _ _ E1), E2.
  repeat split; try apply (same_job_trans _ _ _ J1 J2).
  rewrite phases_app, P1, P2. reflexivity.
Qed.

Lemma returns_bind_quiet {A C} (m : Py A) (k : A -> Py C) w a c ph :
  returns m w a ph ->
  (forall w', same_job w w' -> returns (k a) w' c []) ->
  returns (bind m k) w c ph.
Proof.
  intros Hm Hk. rewrite <- (app_nil_r ph). exact (returns_bind _ _ _ _ _ _ _ Hm Hk).
Qed.

Lemma returns_ret {A} (a : A) w : returns (ret a) w a [].
Proof. exists w, []. repeat split. Qed.

Lemma returns_emit ev w : returns (emit ev) w tt (phases [ev]).
Proof. exists w, [ev]. repeat split. Qed.

Lemma losses_in_exp_range_same_job w w' :
  same_job w w' -> losses_in_exp_range w -> losses_in_exp_range w'.
Proof.
  intros (_ & E & _) H m b Hb. apply H. rewrite <- E. exact Hb.
Qed.

Lemma train_batch_zero_returns idx ls b w :
  ls <> 0 ->
  (forall m, math_exp libm_exp (tensor_float (forward m b))
             <> Raise OverflowError) ->
  returns (train_batch idx ls (0, b) tt) w (Break, tt) [].
Proof.
  intros Hls Hexp. unfold returns. unfold_step. unfold py_mod.
  destruct (ls =? 0) eqn:E; [lia|]. rewrite Z.mod_0_l by exact Hls.
  run; try congruence;
    try (eexists _, _; split; [reflexivity|]; repeat split);
    exfalso;
    match goal with
    | H : math_exp _ _ = Raise ?e |- _ =>
        pose proof (math_exp_raise _ _ _ H); subst e; exact (Hexp _ H)
    end.
Qed.

Lemma train_phase_returns idx ls w :
  ls <> 0 -> losses_in_exp_range w ->
  returns (train_phase idx ls) w tt [TrainPhase idx].
Proof.
  intros Hls Hexp. unfold train_phase, returns.
  rewrite bind_emit, bind_emit, bind_modify, bind_get.
  cbn [train_dataloader set_model].
  destruct (train_dataloader w) as [|b rest] eqn:E.
  - eexists _, _. split; [reflexivity|]. repeat split.
  - rewrite train_loop_first_only.
    destruct (train_batch_zero_returns idx ls b
                (set_model (model_train (model w)) w) Hls)
      as (w' & t & E' & J & Ht).
    { intros m. apply Hexp. rewrite E. left. }
    rewrite E'. eexists _, _. split; [reflexivity|].
    split; [exact J|]. cbn. fold (phases t). rewrite Ht. reflexivity.
Qed.

Lemma eval_phase_returns idx w :
  returns (eval_phase idx) w tt
    (if loader_truthy (eval_dataloader w) then [EvalPhase idx] else []).
Proof.
  unfold returns. rewrite eval_phase_run.
  destruct (eval_dataloader w) as [[|b rest]|];
    eexists _, _; (split; [reflexivity|]); repeat split.
Qed.

Lemma save_returns c epoch w : returns (save (Some c) epoch) w tt [].
Proof.
  unfold returns. rewrite save_dict. eexists _, _. split; [reflexivity|].
  split; [repeat split|]. unfold root_path_warning.
  destruct (is_None _); reflexivity.
Qed.

Lemma epoch_body_returns ls ck idx u w :
  ls <> 0 -> losses_in_exp_range w ->
  returns (epoch_body ls ck idx u) w (Continue, tt)
    (epoch_phases (loader_truthy (eval_dataloader w)) idx).
Proof.
  intros Hls Hexp. unfold epoch_body, epoch_phases.
  change (TrainPhase idx :: ?l) with ([TrainPhase idx] ++ l)%list.
  eapply returns_bind; [apply train_phase_returns; assumption|].
  intros w1 (_ & _ & E1 & _).
  eapply returns_bind_quiet; [rewrite <- E1; apply eval_phase_returns|].
  intros w2 _.
  eapply (returns_bind_quiet _ _ _ tt).
  { destruct ck; [apply save_returns | apply returns_ret]. }
  intros w3 _.
  eapply returns_bind_quiet; [apply returns_emit|].
  intros w4 _. apply returns_ret.
Qed.

Lemma epoch_loop_returns ls ck l w :
  ls <> 0 -> losses_in_exp_range w ->
  returns (for_each (epoch_body ls ck) l tt) w tt
    (flat_map (epoch_phases (loader_truthy (eval_dataloader w))) l).
Proof.
  intros Hls. revert w. induction l as [|idx l IH]; intros w Hexp.
  - apply returns_ret.
  - cbn [for_each flat_map]. eapply returns_bind.
    + apply epoch_body_returns; assumption.
    + intros w' J. destruct J as (Jc & Jt & Je & Js).
      rewrite <- Je. apply IH.
      apply (losses_in_exp_range_same_job w); [repeat split; assumption|].
      exact Hexp.
Qed.

Lemma range_lookup start stop (k : nat) :
  (k < Z.to_nat (stop - start))%nat ->
  range start stop !! k = Some (start + Z.of_nat k).
Proof.
  intros H. unfold range. rewrite list_lookup_fmap, lookup_seq_lt by exact H.
  reflexivity.
Qed.

(** With a nonzero log cadence and training losses within the range of
    [math.exp], [train] returns, and from a starting epoch below the number
    of epochs it goes through the epochs from the starting one up to the
    last, [total - starting] of them in increasing order, each with one
    training phase followed by one evaluation phase exactly when the
    evaluation loader is truthy. *)
Theorem train_runs_every_epoch (w : world) :
  starting_epoch w < default 1 (num_train_epochs (config w)) ->
  default 1 (log_step (config w)) <> 0 ->
  losses_in_exp_range w ->
  exists w' t,
    train w = (Ok tt, w', t) /\
    phases t =
      flat_map (epoch_phases (loader_truthy (eval_dataloader w)))
        (range (starting_epoch w) (default 1 (num_train_epochs (config w)))) /\
    length (range (starting_epoch w) (default 1 (num_train_epochs (config w))))
      = Z.to_nat (default 1 (num_train_epochs (config w)) - starting_epoch w) /\
    (forall k : nat,
       (k < Z.to_nat (default 1 (num_train_epochs (config w))
                      - starting_epoch w)%Z)%nat ->
       range (starting_epoch w) (default 1 (num_train_epochs (config w))) !! k
       = Some (starting_epoch w + Z.of_nat k)).
Proof.
  intros Hlt Hls Hexp.
  destruct (epoch_loop_returns _ (checkpoint (config w))
              (range (starting_epoch w)
                 (default 1 (num_train_epochs (config w)))) w Hls Hexp)
    as (w1 & t1 & E1 & J1 & P1).
  exists w1.
  eexists. split; [|split; [|split]].
  - unfold train. rewrite bind_get, (bind_ok _ _ _ _ _ _ E1), finalize_run.
    reflexivity.
  - rewrite phases_app, P1.
    destruct (default _ (output _)); cbn; rewrite app_nil_r; reflexivity.
  - apply length_range.
  - intros k Hk. apply range_lookup, Hk.
Qed.

(** ** [recovery] *)

#[local] Arguments py_add_one : simpl never.
#[local] Arguments getitem : simpl never.

Ltac load_step :=
  match goal with
  | |- context [fs ?w !! ?p] => destruct (fs w !! p) as [[?|]|] eqn:?
  | |- context [model_load_state_dict ?m ?b] =>
      destruct (model_load_state_dict m b) as [? [?|]] eqn:?
  | |- context [optimizer_load_state_dict ?o ?b] =>
      destruct (optimizer_load_state_dict o b) as [? [?|]] eqn:?
  | |- context [scheduler_load_state_dict ?s ?b] =>
      destruct (scheduler_load_state_dict s b) as [? [?|]] eqn:?
  | |- context [getitem ?d ?k] => destruct (getitem d k) as [[?|?]|] eqn:?
  | |- context [py_add_one ?v] => destruct (py_add_one v) eqn:?
  | |- context [bool_decide ?P] => destruct (bool_decide P) eqn:?
  | |- context [lr_scheduler ?w] => is_var w; destruct (lr_scheduler w) eqn:?
  end.

Ltac unfold_recovery :=
  unfold recovery_body, checkpoint_from_directory, load_model,
    load_optimizer, load_scheduler, hasattr_lr_scheduler;
  unfold bind, get, lift, raise, ret, emit, modify.

(** A failed attempt leaves the starting epoch, the identity of the worker
    and the stored checkpoints as they were. *)
Lemma recovery_body_raise path w e w1 t :
  recovery_body path w = (Raise e, w1, t) ->
  starting_epoch w1 = starting_epoch w /\ fs w1 = fs w.
Proof.
  unfold_recovery. cbn. repeat (load_step; cbn);
    intros H; inversion H; subst; split; reflexivity.
Qed.

(** The model after an attempt on a record that holds a model blob is the
    model as [load_state_dict] left it, whether the attempt failed there,
    later, or not at all. *)
Lemma recovery_body_model path w dct b :
  fs w !! path = Some (Stored dct) ->
  dct !! "model"%string = Some (VBlob b) ->
  model (recovery_body path w).1.2 = (model_load_state_dict (model w) b).1.
Proof.
  intros Hfs Hm. unfold_recovery. cbn. rewrite Hfs. cbn.
  unfold getitem at 1. rewrite Hm. cbn.
  repeat (load_step; cbn); reflexivity.
Qed.

Lemma recovery_dict d w :
  recovery (Some d) w =
    (let '(r, w1, t) := recovery_body (policy_path w d) w in
     (Ok tt, w1,
      (root_path_warning d ++ t ++
       match r with
       | Ok _ => []
       | Raise _ => [LogWarning "recovery error"]
       end)%list)).
Proof.
  unfold recovery, root_path_warning, policy_path, try_except.
  cbn [config_is_empty is_fresh_dict when config_get].
  rewrite bind_ret_l, bind_lift_ok, bind_lift_ok.
  destruct (is_None (default PNone (d !! "root_path"%string))); cbn [when].
  - rewrite bind_emit, bind_get.
    destruct (recovery_body _ w) as [[[[]|e] w1] t]; cbn;
      rewrite ?app_nil_r; reflexivity.
  - rewrite bind_ret_l, bind_get.
    destruct (recovery_body _ w) as [[[[]|e] w1] t]; cbn;
      rewrite ?app_nil_r; reflexivity.
Qed.

Lemma recovery_body_absent path w :
  fs w !! path = None ->
  recovery_body path w
  = (Raise FileNotFoundError, w, [LogInfo (StartRecovery path)]).
Proof. intros H. unfold_recovery. cbn. rewrite H. reflexivity. Qed.

Lemma recovery_body_unreadable path w :
  fs w !! path = Some Unreadable ->
  recovery_body path w
  = (Raise RuntimeError, w, [LogInfo (StartRecovery path)]).
Proof. intros H. unfold_recovery. cbn. rewrite H. reflexivity. Qed.

Lemma recovery_body_missing_model path w dct :
  fs w !! path = Some (Stored dct) -> dct !! "model"%string = None ->
  recovery_body path w = (Raise KeyError, w, [LogInfo (StartRecovery path)]).
Proof.
  intros H Hm. unfold_recovery. cbn. rewrite H. cbn.
  unfold getitem at 1. rewrite Hm. reflexivity.
Qed.

Lemma recovery_body_mismatch path w dct b m e :
  fs w !! path = Some (Stored dct) ->
  dct !! "model"%string = Some (VBlob b) ->
  model_load_state_dict (model w) b = (m, Some e) ->
  recovery_body path w
  = (Raise e, set_model m w, [LogInfo (StartRecovery path)]).
Proof.
  intros H Hm Hl. unfold_recovery. cbn. rewrite H. cbn.
  unfold getitem at 1. rewrite Hm. cbn. rewrite Hl. reflexivity.
Qed.

(** The starting epoch after [recovery], when the attempt failed. *)
Lemma recovery_failed_keeps_epoch d w e w1 t :
  recovery_body (policy_path w d) w = (Raise e, w1, t) ->
  recovery (Some d) w
  = (Ok tt, w1,
     (root_path_warning d ++ t ++ [LogWarning "recovery error"])%list) /\
  starting_epoch w1 = starting_epoch w.
Proof.
  intros H. rewrite recovery_dict, H.
  split; [reflexivity | exact (proj1 (recovery_body_raise _ _ _ _ _ H))].
Qed.

(** C8. When the attempt inside [recovery] raises, [recovery] returns with
    the warning logged and the starting epoch as it was before the call; the
    trainer is otherwise as the failed attempt left it, so on a record with
    a model blob the model is the one [load_state_dict] produced even though
    the attempt failed. *)
Theorem recovery_failure_keeps_starting_epoch
    (d : gmap string pyval) (w w1 : world) (e : exn) (t : list event) :
  recovery_body (policy_path w d) w = (Raise e, w1, t) ->
  recovery (Some d) w
  = (Ok tt, w1,
     (root_path_warning d ++ t ++ [LogWarning "recovery error"])%list) /\
  starting_epoch w1 = starting_epoch w /\
  (forall dct b,
     fs w !! policy_path w d = Some (Stored dct) ->
     dct !! "model"%string = Some (VBlob b) ->
     model w1 = (model_load_state_dict (model w) b).1).
Proof.
  intros H. destruct (recovery_failed_keeps_epoch _ _ _ _ _ H) as [E S].
  split; [exact E|]. split; [exact S|].
  intros dct b Hfs Hm.
  pose proof (recovery_body_model _ _ _ _ Hfs Hm) as M.
  rewrite H in M. exact M.
Qed.

(** C5. On a dictionary, [recovery] returns and never raises.  From a
    starting epoch of 0, every failed attempt leaves the starting epoch at 0
    and logs the warning; an absent path, unreadable content, a record
    without a model entry and a model blob that the model rejects are such
    failures. *)
Theorem recovery_never_raises (d : gmap string pyval) (w : world) :
  starting_epoch w = 0 ->
  exists w' t,
    recovery (Some d) w = (Ok tt, w', t) /\
    (forall e w1 t1,
       recovery_body (policy_path w d) w = (Raise e, w1, t1) ->
       starting_epoch w' = 0 /\ last t = Some (LogWarning "recovery error")) /\
    (fs w !! policy_path w d = None -> starting_epoch w' = 0) /\
    (fs w !! policy_path w d = Some Unreadable -> starting_epoch w' = 0) /\
    (forall dct,
       fs w !! policy_path w d = Some (Stored dct) ->
       dct !! "model"%string = None -> starting_epoch w' = 0) /\
    (forall dct b m e,
       fs w !! policy_path w d = Some (Stored dct) ->
       dct !! "model"%string = Some (VBlob b) ->
       model_load_state_dict (model w) b = (m, Some e) ->
       starting_epoch w' = 0).
Proof.
  intros H0.
  pose proof (recovery_dict d w) as R.
  destruct (recovery_body (policy_path w d) w) as [[r w1] t1] eqn:Hb.
  eexists _, _. split; [exact R|].
  split; [|split; [|split; [|split]]].
  - intros e w2 t2 Hb'. inversion Hb'; subst. split.
    + rewrite (proj1 (recovery_body_raise _ _ _ _ _ Hb)). exact H0.
    + rewrite app_assoc. apply last_snoc.
  - intros Hfs. rewrite (recovery_body_absent _ _ Hfs) in Hb.
    inversion Hb; subst. exact H0.
  - intros Hfs. rewrite (recovery_body_unreadable _ _ Hfs) in Hb.
    inversion Hb; subst. exact H0.
  - intros dct Hfs Hm.
    rewrite (recovery_body_missing_model _ _ _ Hfs Hm) in Hb.
    inversion Hb; subst. exact H0.
  - intros dct b m e Hfs Hm Hl.
    rewrite (recovery_body_mismatch _ _ _ _ _ _ Hfs Hm Hl) in Hb.
    inversion Hb; subst. exact H0.
Qed.

(** ** [save] followed by [recovery] *)

Lemma saved_status_epoch w epoch :
  saved_status w epoch !! "epoch"%string = Some (VPy (PInt epoch)).
Proof. unfold saved_status. destruct (lr_scheduler w); by simplify_map_eq. Qed.

Lemma saved_status_model w epoch :
  saved_status w epoch !! "model"%string
  = Some (VBlob (model_state_dict (unwrap_model (model w)))).
Proof. unfold saved_status. destruct (lr_scheduler w); by simplify_map_eq. Qed.

Lemma saved_status_optimizer w epoch :
  saved_status w epoch !! "optimizer_state_dict"%string
  = Some (VBlob (optimizer_state_dict (optimizer w))).
Proof. unfold saved_status. destruct (lr_scheduler w); by simplify_map_eq. Qed.

Lemma saved_status_scheduler w epoch :
  saved_status w epoch !! "lr_scheduler"%string
  = (fun s => VBlob (scheduler_state_dict s)) <$> lr_scheduler w.
Proof. unfold saved_status. destruct (lr_scheduler w); by simplify_map_eq. Qed.

(** Where the prepared model accepts the state dictionary of the model
    inside, [recovery] run on the policy, rank and size that [save] wrote a
    record for at [epoch] returns with the starting epoch at [epoch + 1] and
    with the saved model and optimizer states, provided the recovering
    trainer has a scheduler whenever the saving one had. *)
Lemma save_then_recovery
    (d : gmap string pyval) (epoch : Z) (w w2 : world) :
  saved_state_loadable ->
  rank w2 = rank w -> size w2 = size w ->
  fs w2 = fs (save (Some d) epoch w).1.2 ->
  (has_scheduler w = true -> has_scheduler w2 = true) ->
  exists w3 t,
    recovery (Some d) w2 = (Ok tt, w3, t) /\
    starting_epoch w3 = epoch + 1 /\
    model_state_dict (unwrap_model (model w3))
    = model_state_dict (unwrap_model (model w)) /\
    optimizer_state_dict (optimizer w3)
    = optimizer_state_dict (optimizer w).
Proof.
  intros (Lm & Lo & Ls) Hr Hs Hfs Hsch.
  rewrite save_dict in Hfs. cbn in Hfs.
  assert (P : policy_path w2 d = policy_path w d).
  { unfold policy_path, _get_local_path. rewrite Hr, Hs. reflexivity. }
  assert (F : fs w2 !! policy_path w2 d
              = Some (Stored (saved_status w epoch))).
  { rewrite Hfs, P. apply lookup_insert_eq. }
  destruct (Lm (model w2) (model w)) as (m' & Em & Sm).
  destruct (Lo (optimizer w2) (optimizer w)) as (o' & Eo & So).
  rewrite recovery_dict.
  unfold_recovery. cbn. rewrite F. cbn.
  unfold getitem.
  rewrite saved_status_model, saved_status_optimizer, saved_status_epoch,
    saved_status_scheduler.
  cbn. rewrite Em. cbn. rewrite Eo. cbn.
  unfold has_scheduler in Hsch.
  destruct (lr_scheduler w) as [s|] eqn:E1; cbn.
  - destruct (lr_scheduler w2) as [s2|] eqn:E2;
      [|specialize (Hsch eq_refl); discriminate].
    destruct (Ls s2 s) as (s' & Es). rewrite Es. cbn.
    eexists _, _. split; [reflexivity|]. cbn. repeat split; assumption.
  - eexists _, _. split; [reflexivity|]. cbn. repeat split; assumption.
Qed.

(** ** The evaluation metrics *)

(** C6. When [math.exp] of the mean evaluation loss raises
    [OverflowError], the metrics are infinity twice, nothing is raised, and
    the evaluation phase returns after logging them; a mean loss of one
    million makes [math.exp] raise it. *)
Theorem eval_overflow_saturates
    (idx : Z) (w : world) (b : Batch) (rest : list Batch) :
  eval_dataloader w = Some (b :: rest) ->
  math_exp libm_exp
    (tensor_float
       (torch_mean
          (torch_cat [repeat_gather (forward (model_eval (model w)) b)])))
  = Raise OverflowError ->
  eval_metrics
    (torch_cat [repeat_gather (forward (model_eval (model w)) b)]) w
  = (Ok (inr float_inf, float_inf), w, []) /\
  eval_phase idx w
  = (Ok tt, set_model (model_eval (model w)) w,
     [LogInfo (StartEvalEpoch idx); ModelEval; Forward b; GatherForMetrics;
      LogInfo (EvalEpoch idx (inr float_inf) float_inf)]) /\
  (forall f, math_exp f Sample.one_million = Raise OverflowError).
Proof.
  intros Hd Hexp. split; [|split].
  - rewrite eval_metrics_run. unfold eval_result. rewrite Hexp. reflexivity.
  - rewrite eval_phase_run, Hd. cbn [model set_model].
    unfold eval_result. rewrite Hexp. reflexivity.
  - intros f. reflexivity.
Qed.

(** ** [save] on a policy with a missing key *)

(** C2, as the code has it.  A policy without [model_name] is not empty for
    [save]: with a root path it logs no warning and writes the record under
    the empty name, at [{root_path}/_{rank}-of-{size}].  A policy without
    [root_path] makes [save] log the warning first. *)
Theorem save_with_missing_key
    (d : gmap string pyval) (epoch : Z) (w : world) :
  (forall root,
     d !! "model_name"%string = None ->
     d !! "root_path"%string = Some (PStr root) ->
     policy_path w d
     = (root +:+ "/_" +:+ pretty (rank w) +:+ "-of-" +:+ pretty (size w))
         %string /\
     save (Some d) epoch w
     = (Ok tt,
        set_fs (<[policy_path w d := Stored (saved_status w epoch)]> (fs w)) w,
        [LogInfo (SaveCheckpointTo (policy_path w d));
         CheckpointWrite (policy_path w d) (saved_status w epoch);
         LogInfo SaveCheckpointFinish])) /\
  (d !! "root_path"%string = None ->
   exists t,
     (save (Some d) epoch w).2
     = LogWarning "checkpoint root_path is empty, skip" :: t).
Proof.
  split.
  - intros root Hn Hr. split.
    + unfold policy_path, _get_local_path. rewrite Hn, Hr. reflexivity.
    + rewrite save_dict. unfold root_path_warning. rewrite Hr. reflexivity.
  - intros Hr. rewrite save_dict. unfold root_path_warning. rewrite Hr.
    eexists. reflexivity.
Qed.

(** ** The batches of an epoch *)

Lemma train_phase_forwarded idx ls w b rest :
  train_dataloader w = b :: rest ->
  forwarded (train_phase idx ls w).2 = [b].
Proof.
  intros H. unfold train_phase.
  rewrite bind_emit, bind_emit, bind_modify, bind_get.
  cbn [train_dataloader set_model]. rewrite H, train_loop_first_only.
  pose proof (train_batch_forwarded idx ls 0 b tt
                (set_model (model_train (model w)) w)) as F.
  destruct (train_batch _ _ _ _ _) as [[r w'] t]. exact F.
Qed.

Lemma eval_phase_forwarded idx w b rest :
  eval_dataloader w = Some (b :: rest) ->
  forwarded (eval_phase idx w).2 = [b].
Proof. intros H. rewrite eval_phase_run, H. reflexivity. Qed.

(** ** The path of a worker *)

Lemma length_append (s t : string) :
  String.length (s +:+ t) = (String.length s + String.length t)%nat.
Proof.
  induction s as [|a s IH]; [reflexivity|].
  change (String a s +:+ t)%string with (String a (s +:+ t)).
  cbn [String.length]. rewrite IH. reflexivity.
Qed.

Lemma append_inv_tail (s1 s2 t : string) : s1 +:+ t = s2 +:+ t -> s1 = s2.
Proof.
  revert s2. induction s1 as [|a s1 IH]; intros [|b s2] H.
  - reflexivity.
  - apply (f_equal String.length) in H. rewrite !length_append in H.
    cbn in H. lia.
  - apply (f_equal String.length) in H. rewrite !length_append in H.
    cbn in H. lia.
  - change (String a (s1 +:+ t) = String b (s2 +:+ t)) in H.
    injection H as -> H. f_equal. exact (IH _ H).
Qed.

(** X1. In a job of a given size, workers of different ranks derive different
    paths from the same policy. *)
Lemma local_path_separates_ranks (w1 w2 : world) (root_path model_name : pyval) :
  size w1 = size w2 -> rank w1 <> rank w2 ->
  _get_local_path w1 root_path model_name
  <> _get_local_path w2 root_path model_name.
Proof.
  intros Hs Hr E. apply Hr. unfold _get_local_path in E. rewrite Hs in E.
  do 4 apply String.app_inj in E.
  apply append_inv_tail in E. exact (pretty_Z_inj _ _ E).
Qed.

(** ** What [save] and [recovery] touch *)

(** X2. Saving twice under one policy leaves what the second save alone would
    leave: the later record replaces the earlier one.  The record is at the
    path of the worker, and every other path is as it was. *)
Lemma save_overwrites (d : gmap string pyval) (e1 e2 : Z) (w : world) :
  (save (Some d) e2 (save (Some d) e1 w).1.2).1.2 = (save (Some d) e2 w).1.2 /\
  fs (save (Some d) e2 w).1.2 !! policy_path w d
  = Some (Stored (saved_status w e2)) /\
  (forall p, p <> policy_path w d ->
     fs (save (Some d) e2 w).1.2 !! p = fs w !! p).
Proof.
  rewrite !save_dict. cbn [fst snd]. split; [|split].
  - unfold set_fs, policy_path, _get_local_path, saved_status. cbn.
    rewrite insert_insert_eq. reflexivity.
  - cbn. apply lookup_insert_eq.
  - intros p Hp. cbn. apply lookup_insert_ne. congruence.
Qed.

Lemma recovery_body_frame path w :
  fs (recovery_body path w).1.2 = fs w /\
  config (recovery_body path w).1.2 = config w /\
  rank (recovery_body path w).1.2 = rank w /\
  size (recovery_body path w).1.2 = size w /\
  train_dataloader (recovery_body path w).1.2 = train_dataloader w /\
  eval_dataloader (recovery_body path w).1.2 = eval_dataloader w /\
  has_scheduler (recovery_body path w).1.2 = has_scheduler w.
Proof.
  unfold has_scheduler. unfold_recovery. cbn.
  repeat (load_step; cbn); repeat split; congruence.
Qed.

Lemma recovery_unchanged (cfg : option (gmap string pyval)) (w : world) :
  fs (recovery cfg w).1.2 = fs w /\
  config (recovery cfg w).1.2 = config w /\
  rank (recovery cfg w).1.2 = rank w /\
  size (recovery cfg w).1.2 = size w /\
  train_dataloader (recovery cfg w).1.2 = train_dataloader w /\
  eval_dataloader (recovery cfg w).1.2 = eval_dataloader w /\
  has_scheduler (recovery cfg w).1.2 = has_scheduler w.
Proof.
  destruct cfg as [d|]; [|repeat split].
  rewrite recovery_dict.
  pose proof (recovery_body_frame (policy_path w d) w) as F.
  destruct (recovery_body (policy_path w d) w) as [[r w1] t]. exact F.
Qed.

(** X3. [recovery] reads the store and never writes it: whatever its
    argument and its outcome, the store, the configuration, the identity of
    the worker, the loaders and the presence of a scheduler are as
    before. *)
Lemma recovery_never_writes (cfg : option (gmap string pyval)) (w : world) :
  fs (recovery cfg w).1.2 = fs w /\
  config (recovery cfg w).1.2 = config w /\
  rank (recovery cfg w).1.2 = rank w /\
  size (recovery cfg w).1.2 = size w /\
  train_dataloader (recovery cfg w).1.2 = train_dataloader w /\
  eval_dataloader (recovery cfg w).1.2 = eval_dataloader w /\
  has_scheduler (recovery cfg w).1.2 = has_scheduler w.
Proof. apply recovery_unchanged. Qed.

(** X4. A record with a scheduler entry met by a trainer without a scheduler:
    the attempt fails on the scheduler, after the model and the optimizer
    have taken the saved state, and the starting epoch stays. *)
Lemma recovery_without_scheduler
    (d : gmap string pyval) (w : world) (dct : gmap string ckval)
    (bm bo : Blob) (m : Model) (o : Optim) :
  fs w !! policy_path w d = Some (Stored dct) ->
  dct !! "model"%string = Some (VBlob bm) ->
  model_load_state_dict (model w) bm = (m, None) ->
  dct !! "optimizer_state_dict"%string = Some (VBlob bo) ->
  optimizer_load_state_dict (optimizer w) bo = (o, None) ->
  is_Some (dct !! "lr_scheduler"%string) ->
  lr_scheduler w = None ->
  recovery (Some d) w
  = (Ok tt, set_optimizer o (set_model m w),
     (root_path_warning d ++
      [LogInfo (StartRecovery (policy_path w d));
       LogWarning "recovery error"])%list).
Proof.
  intros Hfs Hm Lm Ho Lo Hs Hn. rewrite recovery_dict.
  unfold_recovery. cbn. rewrite Hfs. cbn.
  unfold getitem. rewrite Hm. cbn. rewrite Lm. cbn. rewrite Ho. cbn.
  rewrite Lo. cbn. rewrite (bool_decide_eq_true_2 _ Hs). cbn.
  destruct Hs as [v Hv]. rewrite Hv. cbn. rewrite Hn. reflexivity.
Qed.

(** X5. A record without a scheduler entry is accepted by a trainer that has a
    scheduler: the scheduler is left as it is and the starting epoch moves
    past the recorded one. *)
Lemma recovery_without_scheduler_entry
    (d : gmap string pyval) (w : world) (dct : gmap string ckval)
    (bm bo : Blob) (m : Model) (o : Optim) (z : Z) :
  fs w !! policy_path w d = Some (Stored dct) ->
  dct !! "model"%string = Some (VBlob bm) ->
  model_load_state_dict (model w) bm = (m, None) ->
  dct !! "optimizer_state_dict"%string = Some (VBlob bo) ->
  optimizer_load_state_dict (optimizer w) bo = (o, None) ->
  dct !! "lr_scheduler"%string = None ->
  dct !! "epoch"%string = Some (VPy (PInt z)) ->
  recovery (Some d) w
  = (Ok tt, set_starting_epoch (z + 1) (set_optimizer o (set_model m w)),
     (root_path_warning d ++
      [LogInfo (StartRecovery (policy_path w d));
       LogInfo (RecoveryTo (z + 1))])%list).
Proof.
  intros Hfs Hm Lm Ho Lo Hs He. rewrite recovery_dict.
  unfold_recovery. cbn. rewrite Hfs. cbn.
  unfold getitem. rewrite Hm. cbn. rewrite Lm. cbn. rewrite Ho. cbn.
  rewrite Lo. cbn. rewrite bool_decide_eq_false_2; cbn.
  - rewrite He. reflexivity.
  - rewrite Hs. intros [v Hv]. discriminate.
Qed.

(** The record that [save] wrote for the trainer [w0] at epoch [e], found
    by a trainer at its own path. *)
Lemma recovery_of_saved
    (d : gmap string pyval) (e : Z) (w0 w2 : world) :
  saved_state_loadable ->
  fs w2 !! policy_path w2 d = Some (Stored (saved_status w0 e)) ->
  (has_scheduler w0 = true -> has_scheduler w2 = true) ->
  exists w3 t,
    recovery (Some d) w2 = (Ok tt, w3, t) /\
    starting_epoch w3 = e + 1 /\
    model_state_dict (unwrap_model (model w3))
    = model_state_dict (unwrap_model (model w0)) /\
    optimizer_state_dict (optimizer w3) = optimizer_state_dict (optimizer w0).
Proof.
  intros (Lm & Lo & Ls) F Hsch.
  destruct (Lm (model w2) (model w0)) as (m' & Em & Sm).
  destruct (Lo (optimizer w2) (optimizer w0)) as (o' & Eo & So).
  rewrite recovery_dict.
  unfold_recovery. cbn. rewrite F. cbn.
  unfold getitem.
  rewrite saved_status_model, saved_status_optimizer, saved_status_epoch,
    saved_status_scheduler.
  cbn. rewrite Em. cbn. rewrite Eo. cbn.
  unfold has_scheduler in Hsch.
  destruct (lr_scheduler w0) as [s|] eqn:E1; cbn.
  - destruct (lr_scheduler w2) as [s2|] eqn:E2;
      [|specialize (Hsch eq_refl); discriminate].
    destruct (Ls s2 s) as (s' & Es). rewrite Es. cbn.
    eexists _, _. split; [reflexivity|]. cbn. repeat split; assumption.
  - eexists _, _. split; [reflexivity|]. cbn. repeat split; assumption.
Qed.

(** ** The milestones of [train] *)

Lemma milestones_app t1 t2 :
  milestones (t1 ++ t2) = (milestones t1 ++ milestones t2)%list.
Proof. apply omap_app. Qed.

Lemma same_worker_refl w : same_worker w w.
Proof. repeat split. Qed.

Lemma same_worker_trans w1 w2 w3 :
  same_worker w1 w2 -> same_worker w2 w3 -> same_worker w1 w3.
Proof.
  intros (J1 & ? & ? & ?) (J2 & ? & ? & ?).
  split; [exact (same_job_trans _ _ _ J1 J2)|]. repeat split; congruence.
Qed.

Lemma policy_path_same_worker w w' d :
  same_worker w w' -> policy_path w' d = policy_path w d.
Proof.
  intros (_ & Hr & Hs & _). unfold policy_path, _get_local_path.
  rewrite Hr, Hs. reflexivity.
Qed.

Lemma epoch_milestones_same_worker w w' idx :
  same_worker w w' -> epoch_milestones w' idx = epoch_milestones w idx.
Proof.
  intros H. pose proof H as ((Hc & _ & He & _) & _).
  unfold epoch_milestones. rewrite Hc, He.
  destruct (checkpoint (config w)); [|reflexivity].
  rewrite (policy_path_same_worker _ _ _ H). reflexivity.
Qed.

Lemma first_step_safe_same_worker w w' :
  same_worker w w' -> first_step_safe w -> first_step_safe w'.
Proof.
  intros ((Hc & Ht & _) & _). unfold first_step_safe. rewrite Hc, Ht. tauto.
Qed.

Lemma reaches_bind {A C} (m : Py A) (k : A -> Py C) w a c ms1 ms2 w1 w2 :
  reaches m w a ms1 w1 -> reaches (k a) w1 c ms2 w2 ->
  reaches (bind m k) w c (ms1 ++ ms2) w2.
Proof.
  intros (t1 & E1 & M1) (t2 & E2 & M2). exists (t1 ++ t2)%list.
  rewrite (bind_ok _ _ _ _ _ _ E1), E2, milestones_app, M1, M2.
  split; reflexivity.
Qed.

Lemma train_batch_zero_run idx ls b w :
  ls <> 0 ->
  (forall m, math_exp libm_exp (tensor_float (forward m b))
             <> Raise OverflowError) ->
  exists w',
    reaches (train_batch idx ls (0, b) tt) w (Break, tt) [] w' /\
    same_worker w w' /\ fs w' = fs w.
Proof.
  intros Hls Hexp. unfold reaches, same_worker, same_job, has_scheduler.
  unfold_step. unfold py_mod.
  destruct (ls =? 0) eqn:E; [lia|]. rewrite Z.mod_0_l by exact Hls.
  run; try congruence;
    try (eexists; split;
         [eexists; split; reflexivity
         | repeat split; cbn;
           try match goal with
               | H : lr_scheduler _ = _ |- _ => rewrite H
               end; reflexivity]);
    exfalso;
    match goal with
    | H : math_exp _ _ = Raise ?e |- _ =>
        pose proof (math_exp_raise _ _ _ H); subst e; exact (Hexp _ H)
    end.
Qed.

Lemma train_phase_run idx w :
  first_step_safe w ->
  exists w',
    reaches (train_phase idx (default 1 (log_step (config w)))) w tt
      [Phase (TrainPhase idx)] w' /\
    same_worker w w' /\ fs w' = fs w.
Proof.
  intros Hsafe. unfold train_phase, reaches, first_step_safe in *.
  rewrite bind_emit, bind_emit, bind_modify, bind_get.
  cbn [train_dataloader set_model].
  destruct (train_dataloader w) as [|b rest] eqn:E.
  - eexists. split; [eexists; split; reflexivity|]. repeat split.
  - rewrite train_loop_first_only. destruct Hsafe as [Hls Hexp].
    destruct (train_batch_zero_run idx _ b
                (set_model (model_train (model w)) w) Hls Hexp)
      as (w' & (t & E' & Mt) & J & F).
    rewrite E'. exists w'. split; [|split; [exact J | exact F]].
    eexists. split; [reflexivity|].
    cbn. fold (milestones t). rewrite Mt. reflexivity.
Qed.

Lemma eval_phase_reaches idx w :
  exists w',
    reaches (eval_phase idx) w tt
      (Phase <$> (if loader_truthy (eval_dataloader w)
                  then [EvalPhase idx] else [])) w' /\
    same_worker w w' /\ fs w' = fs w.
Proof.
  unfold reaches. rewrite eval_phase_run.
  destruct (eval_dataloader w) as [[|b rest]|];
    (eexists; split; [eexists; split; reflexivity | repeat split]).
Qed.

Lemma save_reaches d idx w :
  reaches (save (Some d) idx) w tt
    [Checkpoint (policy_path w d) (Some (VPy (PInt idx)))]
    (set_fs (<[policy_path w d := Stored (saved_status w idx)]> (fs w)) w).
Proof.
  unfold reaches. rewrite save_dict. eexists. split; [reflexivity|].
  rewrite milestones_app. unfold root_path_warning.
  destruct (is_None _); cbn; rewrite saved_status_epoch; reflexivity.
Qed.

Lemma epoch_body_run idx u w :
  first_step_safe w ->
  exists w',
    reaches (epoch_body (default 1 (log_step (config w)))
               (checkpoint (config w)) idx u) w (Continue, tt)
      (epoch_milestones w idx) w' /\
    same_worker w w' /\
    fs w' = match checkpoint (config w) with
            | Some d => <[policy_path w d := Stored (saved_status w' idx)]> (fs w)
            | None => fs w
            end.
Proof.
  intros Hsafe.
  destruct (train_phase_run idx w Hsafe) as (w1 & R1 & J1 & F1).
  destruct (eval_phase_reaches idx w1) as (w2 & R2 & J2 & F2).
  pose proof (same_worker_trans _ _ _ J1 J2) as J12.
  assert (Ee : eval_dataloader w1 = eval_dataloader w)
    by (destruct J1 as ((_ & _ & Ee & _) & _); exact Ee).
  rewrite Ee in R2.
  unfold epoch_body, epoch_milestones, epoch_phases.
  destruct (checkpoint (config w)) as [d|].
  - exists (set_fs (<[policy_path w2 d := Stored (saved_status w2 idx)]> (fs w2))
              w2).
    split; [|split].
    + rewrite fmap_cons, <- app_comm_cons.
      change (Phase (TrainPhase idx) :: ?l)%list
        with ([Phase (TrainPhase idx)] ++ l)%list.
      eapply reaches_bind; [exact R1|].
      eapply reaches_bind; [exact R2|].
      rewrite <- (policy_path_same_worker _ _ d J12).
      eapply reaches_bind; [apply save_reaches|].
      eexists. split; reflexivity.
    + destruct J12 as (J & ? & ? & ?). split; [exact J|]. repeat split; assumption.
    + cbn. rewrite (policy_path_same_worker _ _ d J12), F2, F1. reflexivity.
  - exists w2. split; [|split].
    + rewrite fmap_cons, <- app_comm_cons.
      change (Phase (TrainPhase idx) :: ?l)%list
        with ([Phase (TrainPhase idx)] ++ l)%list.
      eapply reaches_bind; [exact R1|].
      eapply reaches_bind; [exact R2|].
      eexists. split; reflexivity.
    + exact J12.
    + rewrite F2, F1. reflexivity.
Qed.

(** The store after the epochs [l]: with a checkpoint policy, only the path
    of the worker has changed, and it holds the state of the trainer as the
    last epoch left it. *)
Lemma epoch_loop_run ls ck l :
  forall w,
    ls = default 1 (log_step (config w)) -> ck = checkpoint (config w) ->
    first_step_safe w ->
    exists w',
      reaches (for_each (epoch_body ls ck) l tt) w tt
        (flat_map (epoch_milestones w) l) w' /\
      same_worker w w' /\
      (l = [] -> w' = w) /\
      match ck with
      | Some d =>
          (forall p, p <> policy_path w d -> fs w' !! p = fs w !! p) /\
          (forall idx, last l = Some idx ->
             fs w' !! policy_path w d = Some (Stored (saved_status w' idx)))
      | None => fs w' = fs w
      end.
Proof.
  induction l as [|idx l IH]; intros w Hls Hck Hsafe.
  - exists w. split; [exists []; split; reflexivity|].
    split; [apply same_worker_refl|]. split; [reflexivity|].
    destruct ck; [|reflexivity]. split; [reflexivity | discriminate].
  - destruct (epoch_body_run idx tt w Hsafe) as (w1 & R1 & J1 & F1).
    rewrite <- Hls, <- Hck in R1. rewrite <- Hck in F1.
    pose proof J1 as ((Hc & _) & _).
    destruct (IH w1) as (w' & R & J & Hnil & F).
    { rewrite Hc. exact Hls. }
    { rewrite Hc. exact Hck. }
    { exact (first_step_safe_same_worker _ _ J1 Hsafe). }
    exists w'. split; [|split; [|split]].
    + cbn [for_each flat_map]. eapply reaches_bind; [exact R1|].
      cbn beta iota.
      erewrite flat_map_ext; [exact R|].
      intros i. symmetry. apply (epoch_milestones_same_worker _ _ _ J1).
    + exact (same_worker_trans _ _ _ J1 J).
    + discriminate.
    + destruct ck as [d|]; [|rewrite F, F1; reflexivity].
      destruct F as [Fo Fl].
      rewrite (policy_path_same_worker _ _ d J1) in Fo, Fl.
      split.
      * intros p Hp. rewrite (Fo p Hp), F1. apply lookup_insert_ne. congruence.
      * intros i Hi. destruct l as [|j l].
        -- injection Hi as <-. rewrite (Hnil eq_refl), F1.
           apply lookup_insert_eq.
        -- apply Fl. exact Hi.
Qed.

Lemma milestones_finalize w :
  exists t, finalize w = (Ok tt, w, t) /\ milestones t = final_milestones w.
Proof.
  rewrite finalize_run. eexists. split; [reflexivity|].
  unfold final_milestones. destruct (default _ (output _)); reflexivity.
Qed.

Lemma last_range start stop :
  start < stop -> last (range start stop) = Some (stop - 1).
Proof.
  intros H. unfold range.
  replace (Z.to_nat (stop - start)) with (S (Z.to_nat (stop - start - 1)))
    by lia.
  rewrite seq_S, fmap_app. cbn [fmap list_fmap]. rewrite last_snoc.
  f_equal. lia.
Qed.

(** X6. When the first batch can be stepped on, [train] returns, and what it
    shows to the outside is, for each epoch from the starting one to the
    last: the training phase, the evaluation phase when the evaluation
    loader is truthy, with a checkpoint policy one write at the path of the
    worker recording that epoch, and one barrier; then the model save,
    unless the output is [None], and a last barrier. *)
Lemma train_milestones (w : world) :
  first_step_safe w ->
  exists w' t,
    train w = (Ok tt, w', t) /\
    milestones t =
      (flat_map (epoch_milestones w)
         (range (starting_epoch w) (default 1 (num_train_epochs (config w))))
       ++ final_milestones w)%list.
Proof.
  intros Hsafe.
  destruct (epoch_loop_run _ _
              (range (starting_epoch w)
                 (default 1 (num_train_epochs (config w))))
              w eq_refl eq_refl Hsafe)
    as (w1 & (t1 & E1 & M1) & J1 & _).
  destruct (milestones_finalize w1) as (t2 & E2 & M2).
  exists w1, (t1 ++ t2)%list. split.
  - unfold train. rewrite bind_get, (bind_ok _ _ _ _ _ _ E1), E2. reflexivity.
  - rewrite milestones_app, M1, M2. f_equal.
    unfold final_milestones. destruct J1 as ((Hc & _) & _). rewrite Hc.
    reflexivity.
Qed.




Lemma train_last_record (w : world) (d : gmap string pyval) :
  first_step_safe w ->
  checkpoint (config w) = Some d ->
  starting_epoch w < default 1 (num_train_epochs (config w)) ->
  exists w' t,
    train w = (Ok tt, w', t) /\
    same_worker w w' /\
    fs w' !! policy_path w d
    = Some (Stored (saved_status w'
                      (default 1 (num_train_epochs (config w)) - 1))) /\
    (forall p, p <> policy_path w d -> fs w' !! p = fs w !! p).
Proof.
  intros Hsafe Hck Hlt.
  destruct (epoch_loop_run _ _
              (range (starting_epoch w)
                 (default 1 (num_train_epochs (config w))))
              w eq_refl eq_refl Hsafe)
    as (w1 & (t1 & E1 & M1) & J1 & _ & F).
  rewrite Hck in F. destruct F as [Fo Fl].
  destruct (milestones_finalize w1) as (t2 & E2 & M2).
  exists w1, (t1 ++ t2)%list. split; [|split; [exact J1 | split]].
  - unfold train. rewrite bind_get, (bind_ok _ _ _ _ _ _ E1), E2. reflexivity.
  - apply Fl, last_range, Hlt.
  - exact Fo.
Qed.


(** ** Runs of [train] that raise *)

(** An exception of the first training step leaves [train] at once. *)
Lemma train_first_step_raises w b rest e w' t :
  train_dataloader w = b :: rest ->
  starting_epoch w < default 1 (num_train_epochs (config w)) ->
  train_batch (starting_epoch w) (default 1 (log_step (config w))) (0, b) tt
    (set_model (model_train (model w)) w) = (Raise e, w', t) ->
  train w
  = (Raise e, w',
     LogInfo (StartTrainEpoch (starting_epoch w)) :: ModelTrain :: t).
Proof.
  intros Hb Hlt Hstep.
  assert (P : train_phase (starting_epoch w)
                (default 1 (log_step (config w))) w
              = (Raise e, w',
                 LogInfo (StartTrainEpoch (starting_epoch w))
                   :: ModelTrain :: t)).
  { unfold train_phase.
    rewrite bind_emit, bind_emit, bind_modify, bind_get.
    cbn [train_dataloader set_model]. rewrite Hb, train_loop_first_only, Hstep.
    reflexivity. }
  unfold train. rewrite bind_get, (range_cons _ _ Hlt). cbn [for_each].
  apply bind_raise, bind_raise. unfold epoch_body. apply bind_raise, P.
Qed.

Lemma train_batch_zero_log_step idx step b w :
  exists w' t,
    train_batch idx 0 (step, b) tt w = (Raise ZeroDivisionError, w', t) /\
    step_ops t = step_pattern (has_scheduler w) /\
    milestones t = [] /\ fs w' = fs w.
Proof.
  unfold has_scheduler. unfold_step. unfold py_mod. cbn.
  repeat (run_step; cbn); eexists _, _; (split; [reflexivity|]);
    repeat split.
Qed.

Lemma train_batch_overflow idx ls b w :
  ls <> 0 ->
  math_exp libm_exp (tensor_float (forward (model w) b)) = Raise OverflowError ->
  exists w' t,
    train_batch idx ls (0, b) tt w = (Raise OverflowError, w', t) /\
    step_ops t = step_pattern (has_scheduler w) /\
    milestones t = [] /\ fs w' = fs w.
Proof.
  intros Hls Hexp. unfold has_scheduler. unfold_step. unfold py_mod.
  destruct (ls =? 0) eqn:E; [lia|]. rewrite Z.mod_0_l by exact Hls.
  cbn. rewrite Hexp.
  repeat (run_step; cbn); eexists _, _; (split; [reflexivity|]);
    repeat split.
Qed.

(** X8. With a log cadence of 0 and a training batch to step on, [train] raises
    [ZeroDivisionError] in the first step of its first epoch, after the
    optimizer update of that step and before any evaluation, checkpoint,
    barrier or model save. *)
Lemma train_raises_on_zero_log_step (w : world) (b : Batch) (rest : list Batch) :
  train_dataloader w = b :: rest ->
  default 1 (log_step (config w)) = 0 ->
  starting_epoch w < default 1 (num_train_epochs (config w)) ->
  exists w' t,
    train w = (Raise ZeroDivisionError, w', t) /\
    step_ops t = step_pattern (has_scheduler w) /\
    milestones t = [Phase (TrainPhase (starting_epoch w))] /\
    fs w' = fs w.
Proof.
  intros Hb Hls Hlt.
  destruct (train_batch_zero_log_step (starting_epoch w) 0 b
              (set_model (model_train (model w)) w))
    as (w' & t & E & S & M & F).
  exists w', (LogInfo (StartTrainEpoch (starting_epoch w)) :: ModelTrain :: t).
  split; [|split; [|split]].
  - apply (train_first_step_raises _ _ _ _ _ _ Hb Hlt). rewrite Hls. exact E.
  - exact S.
  - cbn. fold (milestones t). rewrite M. reflexivity.
  - exact F.
Qed.

(** X9. A loss on the first training batch beyond the range of [math.exp] is
    not caught as it is in the evaluation phase: [train] raises
    [OverflowError] from the log line of the first step, after the optimizer
    update and before any evaluation, checkpoint, barrier or model save. *)
Lemma train_raises_on_training_overflow
    (w : world) (b : Batch) (rest : list Batch) :
  train_dataloader w = b :: rest ->
  default 1 (log_step (config w)) <> 0 ->
  starting_epoch w < default 1 (num_train_epochs (config w)) ->
  math_exp libm_exp (tensor_float (forward (model_train (model w)) b))
  = Raise OverflowError ->
  exists w' t,
    train w = (Raise OverflowError, w', t) /\
    step_ops t = step_pattern (has_scheduler w) /\
    milestones t = [Phase (TrainPhase (starting_epoch w))] /\
    fs w' = fs w.
Proof.
  intros Hb Hls Hlt Hexp.
  destruct (train_batch_overflow (starting_epoch w) _ b
              (set_model (model_train (model w)) w) Hls Hexp)
    as (w' & t & E & S & M & F).
  exists w', (LogInfo (StartTrainEpoch (starting_epoch w)) :: ModelTrain :: t).
  split; [|split; [|split]].
  - apply (train_first_step_raises _ _ _ _ _ _ Hb Hlt). exact E.
  - exact S.
  - cbn. fold (milestones t). rewrite M. reflexivity.
  - exact F.
Qed.

(** ** [prepare] *)


Section SetupProperties.

Context {W : Workbench}.

Lemma planned_scheduler_enabled self tok ds opt acc sched :
  planned_scheduler self tok ds opt acc = Ok sched ->
  match sched with Some _ => true | None => false end
  = scheduler_enabled (self_config self).
Proof.
  unfold planned_scheduler, scheduler_enabled, _get_lr_scheduler.
  destruct (lr_scheduler_config (self_config self)) as [c|];
    [|intros [= <-]; reflexivity].
  destruct (bool_decide (c <> ∅)) eqn:E.
  - destruct (truthy _); cbn.
    + destruct (get_scheduler _ _ _ _); intros H; inversion H. reflexivity.
    + intros [= <-]. reflexivity.
  - apply bool_decide_eq_false in E. apply dec_stable in E. subst c.
    rewrite lookup_empty. intros [= <-]. reflexivity.
Qed.

Lemma has_scheduler_assembled self model tok ds opt acc sched files :
  has_scheduler (assembled self model tok ds opt acc sched files)
  = match sched with Some _ => true | None => false end.
Proof. destruct sched; reflexivity. Qed.

(** What [prepare] returns: it fails exactly when the scheduler cannot be
    made, and otherwise hands out the assembled trainer, after [recovery]
    when the configuration holds a checkpoint policy. *)
Lemma prepare_result self model tok ds opt acc files :
  (prepare self model tok ds opt acc files).1 =
    match planned_scheduler self tok ds opt acc with
    | Raise e => Raise e
    | Ok sched =>
        Ok match checkpoint (job_keys (self_config self)) with
           | Some c =>
               (recovery (Some c)
                  (assembled self model tok ds opt acc sched files)).1.2
           | None => assembled self model tok ds opt acc sched files
           end
    end.
Proof.
  unfold prepare, planned_scheduler, assembled, _coordinate.
  destruct (dataprocesser_prepare _ _ _) as [tr ev]. cbn [fst snd].
  destruct (tokenizer_len tok >? embedding_size model);
    (destruct (lr_scheduler_config (self_config self)) as [c|];
     [destruct (bool_decide (c <> ∅));
      [destruct (_get_lr_scheduler _ _ _ _ _) as [sched|e]|]|]);
    try reflexivity;
    (destruct (checkpoint (job_keys (self_config self))) as [d|];
     [|reflexivity]);
    rewrite recovery_dict;
    destruct (recovery_body _ _) as [[r w1] t1]; reflexivity.
Qed.

Lemma planned_scheduler_disabled self tok ds opt acc :
  scheduler_enabled (self_config self) = false ->
  planned_scheduler self tok ds opt acc = Ok None.
Proof.
  unfold planned_scheduler, scheduler_enabled, _get_lr_scheduler.
  destruct (lr_scheduler_config (self_config self)) as [c|]; [|reflexivity].
  intros ->. destruct (bool_decide (c <> ∅)); reflexivity.
Qed.


(** What [prepare] fixes of the trainer, with or without a recovery: the
    store it was given, the keys of the job, the rank and the size that the
    accelerator reports, and a scheduler exactly when the configuration
    enables one. *)
Lemma prepare_frame self model tok ds opt acc files w :
  (prepare self model tok ds opt acc files).1 = Ok w ->
  fs w = files /\
  config w = job_keys (self_config self) /\
  rank w = process_index acc /\
  size w = num_processes acc /\
  has_scheduler w = scheduler_enabled (self_config self).
Proof.
  rewrite prepare_result.
  destruct (planned_scheduler self tok ds opt acc) as [sched|e] eqn:Hp;
    [|discriminate].
  intros [= <-].
  pose proof (planned_scheduler_enabled _ _ _ _ _ _ Hp) as He.
  rewrite <- He, <- (has_scheduler_assembled self model tok ds opt acc sched files).
  destruct (checkpoint (job_keys (self_config self))) as [d|].
  - destruct (recovery_unchanged (Some d)
                (assembled self model tok ds opt acc sched files))
      as (F1 & F2 & F3 & F4 & _ & _ & F7).
    rewrite F1, F2, F3, F4, F7. repeat split.
  - repeat split.
Qed.

(** X10. [__init__] fails on a configuration without a [dataprocesser] section
    with the [AttributeError] of [None.get], and on a section without a
    [type], when the registry holds nothing under [None], with a
    [ValueError] that names the type [None]. *)
Lemma init_failures (cfg : TrainerConfig) :
  (dataprocesser_config cfg = None ->
   __init__ cfg = inl (Uncaught AttributeError)) /\
  (forall d,
     dataprocesser_config cfg = Some d ->
     d !! "type"%string = None ->
     registory PNone = None ->
     __init__ cfg = inl (ValueError "there is no None dataprocesser.")).
Proof.
  unfold __init__. split.
  - intros ->. reflexivity.
  - intros d -> Ht Hr. rewrite Ht. cbn [default]. rewrite Hr. reflexivity.
Qed.

(** X11. After [prepare] the trainer has a scheduler exactly when the section
    [lr_scheduler] holds a true [enable]: an absent or empty section, a
    section without [enable] and a false [enable] all give no scheduler. *)
Lemma prepare_has_scheduler self model tok ds opt acc files w :
  (prepare self model tok ds opt acc files).1 = Ok w ->
  has_scheduler w = scheduler_enabled (self_config self) /\
  (lr_scheduler_config (self_config self) = None -> lr_scheduler w = None) /\
  (lr_scheduler_config (self_config self) = Some ∅ -> lr_scheduler w = None) /\
  (forall c, lr_scheduler_config (self_config self) = Some c ->
     c !! "enable"%string = None -> lr_scheduler w = None).
Proof.
  intros H. destruct (prepare_frame _ _ _ _ _ _ _ _ H) as (_ & _ & _ & _ & Hs).
  assert (N : scheduler_enabled (self_config self) = false ->
              lr_scheduler w = None).
  { intros E. rewrite E in Hs. unfold has_scheduler in Hs.
    destruct (lr_scheduler w); [discriminate | reflexivity]. }
  split; [exact Hs|]. unfold scheduler_enabled in N.
  split; [|split].
  - intros E. rewrite E in N. exact (N eq_refl).
  - intros E. rewrite E in N. exact (N eq_refl).
  - intros c E Hc. rewrite E, Hc in N. exact (N eq_refl).
Qed.

(** X12. With an enabled scheduler and no [max_train_steps], the scheduler is
    made for the length of the training loader as the data processor hands
    it out, before the accelerator prepares it, times the number of epochs;
    the type defaults to ["linear"] and the warm-up to 0.  Without a
    checkpoint policy the trainer holds that scheduler as the accelerator
    prepared it. *)
Lemma prepare_sizes_scheduler self model tok ds opt acc files w c :
  lr_scheduler_config (self_config self) = Some c ->
  truthy (default (SBool false) (c !! "enable"%string)) = true ->
  c !! "max_train_steps"%string = None ->
  (prepare self model tok ds opt acc files).1 = Ok w ->
  exists s,
    get_scheduler
      (default (SStr "linear") (c !! "lr_scheduler_type"%string)) opt
      (default (SInt 0) (c !! "num_warmup_steps"%string))
      (SInt (Z.of_nat
               (length (dataprocesser_prepare (self_dataprocesser self)
                          tok ds).1)
             * default 1 (num_train_epochs (job_keys (self_config self)))))
    = Ok s /\
    (checkpoint (job_keys (self_config self)) = None ->
     lr_scheduler w = Some (accelerator_prepare_scheduler acc s) /\
     train_dataloader w
     = accelerator_prepare_dataloader acc
         (dataprocesser_prepare (self_dataprocesser self) tok ds).1).
Proof.
  intros Hc He Hm. rewrite prepare_result.
  unfold planned_scheduler, _get_lr_scheduler. rewrite Hc.
  assert (Hn : c <> ∅).
  { intros ->. rewrite lookup_empty in He. discriminate. }
  rewrite (bool_decide_eq_true_2 _ Hn), He, Hm. cbn [negb default is_SNone].
  destruct (get_scheduler _ _ _ _) as [s|e]; [|discriminate].
  intros [= <-]. exists s. split; [reflexivity|].
  intros ->. split; reflexivity.
Qed.


(** X14. Without an enabled scheduler [prepare] returns, whatever the store
    holds at the path of the worker. *)
Lemma prepare_returns_without_scheduler self model tok ds opt acc files :
  scheduler_enabled (self_config self) = false ->
  exists w,
    (prepare self model tok ds opt acc files).1 = Ok w /\
    lr_scheduler w = None.
Proof.
  intros He. pose proof (prepare_result self model tok ds opt acc files) as R.
  rewrite (planned_scheduler_disabled _ _ _ _ _ He) in R.
  eexists. split; [exact R|].
  destruct (prepare_frame _ _ _ _ _ _ _ _ R) as (_ & _ & _ & _ & Hs).
  rewrite He in Hs. unfold has_scheduler in Hs.
  destruct (lr_scheduler _); [discriminate | reflexivity].
Qed.

Lemma train_finished w :
  default 1 (num_train_epochs (config w)) <= starting_epoch w ->
  train w = finalize w.
Proof.
  intros H. unfold train. rewrite bind_get, (range_empty _ _ H).
  cbn [for_each]. exact (bind_ret_l tt (fun _ => finalize) w).
Qed.

(** X15. A job that ran to its end under a checkpoint policy and is then
    started again, where the prepared model accepts the state dictionary of
    the model inside: the second [prepare], on the same rank of a job of the
    same size, recovers the states of the model inside and of the optimizer
    that [train] left, sets the starting epoch to the number of epochs, and
    [train] then runs no epoch. *)
Lemma restart_resumes self d
    (model1 model2 : Model) (tok1 tok2 : Tokenizer) (ds1 ds2 : Dataset)
    (opt1 opt2 : Optim) (acc1 acc2 : Accelerator)
    (files : gmap string directory) (w1 : world) :
  saved_state_loadable ->
  checkpoint (job_keys (self_config self)) = Some d ->
  (prepare self model1 tok1 ds1 opt1 acc1 files).1 = Ok w1 ->
  first_step_safe w1 ->
  starting_epoch w1
    < default 1 (num_train_epochs (job_keys (self_config self))) ->
  process_index acc2 = process_index acc1 ->
  num_processes acc2 = num_processes acc1 ->
  exists w1' t1,
    train w1 = (Ok tt, w1', t1) /\
    forall w2,
      (prepare self model2 tok2 ds2 opt2 acc2 (fs w1')).1 = Ok w2 ->
      starting_epoch w2
      = default 1 (num_train_epochs (job_keys (self_config self))) /\
      model_state_dict (unwrap_model (model w2))
      = model_state_dict (unwrap_model (model w1')) /\
      optimizer_state_dict (optimizer w2)
      = optimizer_state_dict (optimizer w1') /\
      phases (train w2).2 = [].
Proof.
  intros L Hck P1 Hsafe Hlt Hi Hn.
  destruct (prepare_frame _ _ _ _ _ _ _ _ P1) as (_ & C1 & R1 & S1 & H1).
  rewrite <- C1 in Hlt, Hck.
  destruct (train_last_record w1 d Hsafe Hck Hlt)
    as (w1' & t1 & E & J & Frec & _).
  exists w1', t1. split; [exact E|].
  intros w2 P2.
  destruct (prepare_frame _ _ _ _ _ _ _ _ P2) as (_ & C2 & _).
  rewrite prepare_result in P2.
  destruct (planned_scheduler self tok2 ds2 opt2 acc2) as [s2|e] eqn:Hp;
    [|discriminate].
  rewrite C1 in Hck. rewrite Hck in P2. injection P2 as P2.
  pose proof (planned_scheduler_enabled _ _ _ _ _ _ Hp) as He.
  destruct (recovery_of_saved d
              (default 1 (num_train_epochs (config w1)) - 1) w1'
              (assembled self model2 tok2 ds2 opt2 acc2 s2 (fs w1')) L)
    as (w3 & t3 & E3 & S3 & M3 & O3).
  { rewrite <- Frec. unfold policy_path, _get_local_path. cbn.
    rewrite Hi, Hn, R1, S1. reflexivity. }
  { intros Hw. rewrite has_scheduler_assembled, He, <- H1.
    destruct J as (_ & _ & _ & Hs). rewrite <- Hs. exact Hw. }
  rewrite E3 in P2. cbn in P2. subst w3.
  rewrite <- C1. split; [lia|]. split; [exact M3|]. split; [exact O3|].
  rewrite train_finished, finalize_run.
  - destruct (default _ (output _)); reflexivity.
  - rewrite C2, <- C1. lia.
Qed.

End SetupProperties.

End Properties.


(** * Properties of the model factory and of the predictor *)

Section FactoryProperties.

Context {H : Hub}.

(** X16. The factory raises [TypeError] before it reaches the library when
    the key [config] holds [None], which cannot be unpacked into keyword
    arguments, and when a model name is given while the [config]
    dictionary holds [pretrained_model_name_or_path] too, which the call
    would then receive twice. *)
Lemma factory_rejects_keywords (cfg : Factory.ModelConfig) :
  (Factory.config cfg = Factory.IsNone ->
   Factory.__call__ cfg = Raise TypeError) /\
  (forall n d,
     Factory.name cfg = Some n ->
     Factory.config cfg = Factory.Dict d ->
     is_Some (d !! "pretrained_model_name_or_path"%string) ->
     Factory.__call__ cfg = Raise TypeError).
Proof.
  unfold Factory.__call__. split.
  - intros ->. destruct (Factory.name cfg); reflexivity.
  - intros n d -> -> [v Hv]. cbn. unfold Factory.no_duplicate.
    rewrite Hv. reflexivity.
Qed.

(** X17. Without a LoRA configuration (the key absent, [None] or an empty
    dictionary) the key [deltatuner_config] is never read: the factory
    returns the same result whatever it holds. *)
Lemma deltatuner_needs_lora (cfg : Factory.ModelConfig) (s : Factory.section) :
  Factory.lora_config cfg = Factory.Absent \/
  Factory.lora_config cfg = Factory.IsNone \/
  Factory.lora_config cfg = Factory.Dict ∅ ->
  Factory.__call__ (Factory.with_deltatuner s cfg) = Factory.__call__ cfg.
Proof.
  intros Hl. unfold Factory.__call__, Factory.with_deltatuner. cbn.
  destruct Hl as [-> | [-> | ->]]; cbn; try reflexivity.
Qed.

End FactoryProperties.

Section PredictorProperties.

Context {T : TokenizerOps}.

Lemma configure_tokenizer_llama (model_name : string) (m : Predictor.Model)
    (t : Tok) (a : string) (rest : list string) :
  Predictor.architectures m = Some (a :: rest) ->
  Predictor.search_ignorecase "llama" a = true ->
  exists m' t',
    Predictor.configure_tokenizer model_name (m, t) = inr (m', t') /\
    Predictor.bos_token_id (Predictor.generation_config m')
    = Some (Some (id_of_int 1)) /\
    Predictor.eos_token_id (Predictor.generation_config m')
    = Some (Some (id_of_int 2)) /\
    is_Some (Predictor.pad_token_id (Predictor.generation_config m')).
Proof.
  intros Ha Hl. unfold Predictor.configure_tokenizer. rewrite Ha, Hl. cbn.
  repeat case_match; simplify_eq/=;
    (eexists _, _; split; [reflexivity|]; cbn; repeat split; eauto).
Qed.

(** X18. For a model whose first architecture name contains "llama" in any
    case, [configure_tokenizer] returns for every tokenizer and model name,
    and leaves the generation configuration with the begin-of-sequence id 1
    and the end-of-sequence id 2; the pad id is set, to a value that
    depends on what the tokenizer reports. *)
Lemma llama_generation_ids (model_name : string) (m : Predictor.Model)
    (t : Tok) (a : string) (rest : list string) :
  Predictor.architectures m = Some (a :: rest) ->
  Predictor.search_ignorecase "llama" a = true ->
  exists m' t',
    Predictor.configure_tokenizer model_name (m, t) = inr (m', t') /\
    Predictor.bos_token_id (Predictor.generation_config m')
    = Some (Some (id_of_int 1)) /\
    Predictor.eos_token_id (Predictor.generation_config m')
    = Some (Some (id_of_int 2)) /\
    is_Some (Predictor.pad_token_id (Predictor.generation_config m')).
Proof. apply configure_tokenizer_llama. Qed.

Lemma configure_tokenizer_without_eos model_name m t a rest :
  Predictor.architectures m = Some (a :: rest) ->
  Predictor.search_ignorecase "llama" a = false ->
  Predictor.eos_token_id (Predictor.generation_config m) = None ->
  Predictor.configure_tokenizer model_name (m, t)
  = inl (Predictor.Exn AttributeError).
Proof.
  intros Ha Hl He. unfold Predictor.configure_tokenizer. rewrite Ha, Hl.
  cbn. destruct (get_pad_token_id _); cbn; rewrite He; reflexivity.
Qed.

Lemma configure_tokenizer_with_eos model_name m t a rest eos :
  Predictor.architectures m = Some (a :: rest) ->
  Predictor.eos_token_id (Predictor.generation_config m) = Some eos ->
  exists r, Predictor.configure_tokenizer model_name (m, t) = inr r.
Proof.
  intros Ha He. unfold Predictor.configure_tokenizer. rewrite Ha.
  destruct (Predictor.search_ignorecase "llama" a); cbn;
    destruct (get_pad_token_id _); cbn; rewrite ?He; cbn;
    repeat case_match; simplify_eq/=; eauto.
Qed.

(** X19. [configure_tokenizer] raises in three cases only: [TypeError]
    when the model lists no architectures at all, [IndexError] when the
    list is empty, and [AttributeError] when the architecture is not a
    Llama and the generation configuration has no [eos_token_id] attribute,
    which is read without the [hasattr] guard of the lines above it. *)
Lemma configure_tokenizer_raises (model_name : string) (m : Predictor.Model)
    (t : Tok) (e : Predictor.error) :
  Predictor.configure_tokenizer model_name (m, t) = inl e <->
  (Predictor.architectures m = None /\ e = Predictor.Exn TypeError) \/
  (Predictor.architectures m = Some [] /\ e = Predictor.IndexError) \/
  (exists a rest,
     Predictor.architectures m = Some (a :: rest) /\
     Predictor.search_ignorecase "llama" a = false /\
     Predictor.eos_token_id (Predictor.generation_config m) = None /\
     e = Predictor.Exn AttributeError).
Proof.
  split.
  - intros Hr.
    destruct (Predictor.architectures m) as [[|a rest]|] eqn:Ha.
    + right. left. split; [reflexivity|].
      unfold Predictor.configure_tokenizer in Hr. rewrite Ha in Hr.
      congruence.
    + destruct (Predictor.search_ignorecase "llama" a) eqn:Hl.
      * destruct (configure_tokenizer_llama model_name m t a rest Ha Hl)
          as (m' & t' & E & _). congruence.
      * destruct (Predictor.eos_token_id (Predictor.generation_config m))
          as [eos|] eqn:He.
        -- destruct (configure_tokenizer_with_eos model_name m t a rest eos
                       Ha He) as [r E]. congruence.
        -- right. right. exists a, rest.
           rewrite (configure_tokenizer_without_eos _ _ _ _ _ Ha Hl He) in Hr.
           repeat split; congruence.
    + left. split; [reflexivity|].
      unfold Predictor.configure_tokenizer in Hr. rewrite Ha in Hr.
      congruence.
  - intros [[Ha ->] | [[Ha ->] | (a & rest & Ha & Hl & He & ->)]].
    + unfold Predictor.configure_tokenizer. rewrite Ha. reflexivity.
    + unfold Predictor.configure_tokenizer. rewrite Ha. reflexivity.
    + exact (configure_tokenizer_without_eos _ _ _ _ _ Ha Hl He).
Qed.

End PredictorProperties.

(** * The properties on the concrete backend *)

(** C1. A run of [train] over two training batches and two evaluation
    batches returns after one forward pass in the training phase and one in
    the evaluation phase, both on the first batch: the loops stop after
    their first batch, and the configuration holds no key that governs it. *)
Theorem train_stops_after_first_batch :
  train_dataloader Sample.one_epoch = [Sample.two; Sample.three] /\
  eval_dataloader Sample.one_epoch = Some [Sample.two; Sample.three] /\
  (train Sample.one_epoch).1.1 = Ok tt /\
  forwarded (train_phase 0 1 Sample.one_epoch).2 = [Sample.two] /\
  forwarded (eval_phase 0 Sample.one_epoch).2 = [Sample.two] /\
  forwarded (train Sample.one_epoch).2 = [Sample.two; Sample.two].
Proof. vm_compute. repeat split. Qed.

(** The claim of C2 fails on a policy that only lacks [model_name]: [save]
    writes the record. *)
Lemma save_without_model_name_writes :
  ~ (forall (d : gmap string pyval) (epoch : Z)
            (w : world (B := Sample.backend)),
       d !! "root_path"%string = None \/ d !! "model_name"%string = None ->
       fs (save (Some d) epoch w).1.2 = fs w /\
       List.filter is_write (save (Some d) epoch w).2 = [] /\
       exists msg, (save (Some d) epoch w).2 = [LogWarning msg]).
Proof.
  intros H.
  destruct (H Sample.nameless_policy 0 Sample.fresh) as (_ & Hw & _).
  - right. reflexivity.
  - rewrite save_dict in Hw. discriminate Hw.
Qed.

(** On a policy without [root_path], [save] logs that it skips and then
    writes the record under the root path ["None"]. *)
Example save_without_root_path_writes :
  save (Some Sample.rootless_policy) 3 Sample.fresh
  = (Ok tt,
     set_fs {[ "None/m_0-of-1"%string := Stored (saved_status Sample.fresh 3) ]}
       Sample.fresh,
     [LogWarning "checkpoint root_path is empty, skip";
      LogInfo (SaveCheckpointTo "None/m_0-of-1");
      CheckpointWrite "None/m_0-of-1" (saved_status Sample.fresh 3);
      LogInfo SaveCheckpointFinish]).
Proof. rewrite save_dict. reflexivity. Qed.

(** The sample loaders keep their contract. *)
Lemma sample_saved_state_loadable :
  saved_state_loadable (B := Sample.backend).
Proof.
  repeat split; intros; eexists; try split; reflexivity.
Qed.

Lemma sample_losses_in_exp_range :
  losses_in_exp_range Sample.two_epochs.
Proof.
  intros m b Hb. cbn in Hb.
  apply elem_of_cons in Hb as [->|Hb]; [discriminate|].
  apply elem_of_cons in Hb as [->|Hb]; [discriminate|].
  apply elem_of_nil in Hb. contradiction.
Qed.

Lemma save_with_missing_key_witness :
  Sample.nameless_policy !! "model_name"%string = None /\
  Sample.nameless_policy !! "root_path"%string = Some (PStr "ckpt") /\
  policy_path Sample.fresh Sample.nameless_policy = "ckpt/_0-of-1"%string.
Proof.
  split; [reflexivity|]. split; [reflexivity|].
  exact (proj1 (proj1 (save_with_missing_key Sample.nameless_policy 0
                         Sample.fresh) "ckpt"%string eq_refl eq_refl)).
Defined.

Lemma train_runs_every_epoch_witness :
  starting_epoch Sample.two_epochs
    < default 1 (num_train_epochs (config Sample.two_epochs)) /\
  default 1 (log_step (config Sample.two_epochs)) <> 0 /\
  phases (train Sample.two_epochs).2
  = [TrainPhase 1; EvalPhase 1; TrainPhase 2; EvalPhase 2].
Proof.
  assert (H1 : starting_epoch Sample.two_epochs
               < default 1 (num_train_epochs (config Sample.two_epochs)))
    by reflexivity.
  assert (H2 : default 1 (log_step (config Sample.two_epochs)) <> 0)
    by discriminate.
  split; [exact H1|]. split; [exact H2|].
  destruct (train_runs_every_epoch Sample.two_epochs H1 H2
              sample_losses_in_exp_range) as (w' & t & E & P & _).
  rewrite E. exact P.
Defined.

Lemma save_then_recovery_witness :
  rank Sample.restarted = rank Sample.trained /\
  size Sample.restarted = size Sample.trained /\
  exists w3 t,
    recovery (Some Sample.policy) Sample.restarted = (Ok tt, w3, t) /\
    starting_epoch w3 = 6 /\
    model_state_dict (model w3) = [42] /\
    optimizer_state_dict (optimizer w3) = [9].
Proof.
  split; [reflexivity|]. split; [reflexivity|].
  exact (save_then_recovery Sample.policy 5 Sample.trained Sample.restarted
           sample_saved_state_loadable eq_refl eq_refl eq_refl (fun _ => eq_refl)).
Defined.

Lemma recovery_never_raises_witness :
  starting_epoch Sample.fresh = 0 /\
  fs Sample.fresh !! policy_path Sample.fresh Sample.policy = None /\
  exists w' t,
    recovery (Some Sample.policy) Sample.fresh = (Ok tt, w', t) /\
    starting_epoch w' = 0.
Proof.
  split; [reflexivity|]. split; [reflexivity|].
  destruct (recovery_never_raises Sample.policy Sample.fresh eq_refl)
    as (w' & t & E & _ & Habs & _).
  exists w', t. split; [exact E | exact (Habs eq_refl)].
Defined.

Lemma recovery_failure_keeps_starting_epoch_witness :
  model Sample.interrupted = 100 /\
  starting_epoch (recovery (Some Sample.policy) Sample.interrupted).1.2 = 0 /\
  model (recovery (Some Sample.policy) Sample.interrupted).1.2 = 7.
Proof.
  split; [reflexivity|].
  destruct (recovery_failure_keeps_starting_epoch Sample.policy
              Sample.interrupted
              (set_optimizer (B := Sample.backend) 1
                 (set_model (B := Sample.backend) 7 Sample.interrupted))
              RuntimeError [LogInfo (StartRecovery "ckpt/m_0-of-1")]
              eq_refl) as (E & S & M).
  rewrite E. split; [exact S|].
  exact (M Sample.broken_record [7] eq_refl eq_refl).
Defined.

Lemma eval_overflow_saturates_witness :
  eval_dataloader Sample.diverged = Some [Sample.one_million; Sample.two] /\
  eval_phase 0 Sample.diverged
  = (Ok tt, Sample.diverged,
     [LogInfo (StartEvalEpoch 0); ModelEval;
      Forward (B := Sample.backend) Sample.one_million;
      GatherForMetrics; LogInfo (EvalEpoch 0 (inr float_inf) float_inf)]).
Proof.
  split; [reflexivity|].
  exact (proj1 (proj2 (eval_overflow_saturates (B := Sample.backend)
                         0 Sample.diverged
                         Sample.one_million [Sample.two] eq_refl eq_refl))).
Defined.

Lemma train_without_epochs_witness :
  default 1 (num_train_epochs (config Sample.finished))
    <= starting_epoch Sample.finished /\
  train Sample.finished
  = (Ok tt, Sample.finished,
     [LogInfo (StartSaveModel "./output"); SavePretrained "./output";
      LogInfo (FinishSaveModel "./output"); WaitForEveryone]).
Proof.
  assert (H : default 1 (num_train_epochs (config Sample.finished))
              <= starting_epoch Sample.finished) by discriminate.
  split; [exact H|].
  exact (proj1 (train_without_epochs Sample.finished H)).
Defined.

(** ** The further properties on the concrete backend *)

Lemma sample_first_step_safe : first_step_safe Sample.checkpointed.
Proof. split; [discriminate | intros m; discriminate]. Qed.

Lemma sample_prepared_safe : first_step_safe Sample.prepared.
Proof. split; [discriminate | intros m; discriminate]. Qed.

Lemma local_path_separates_ranks_witness :
  size (Sample.worker 0 2) = size (Sample.worker 1 2) /\
  rank (Sample.worker 0 2) <> rank (Sample.worker 1 2) /\
  _get_local_path (Sample.worker 0 2) (PStr "ckpt") (PStr "m")
  <> _get_local_path (Sample.worker 1 2) (PStr "ckpt") (PStr "m").
Proof.
  assert (H1 : size (Sample.worker 0 2) = size (Sample.worker 1 2))
    by reflexivity.
  assert (H2 : rank (Sample.worker 0 2) <> rank (Sample.worker 1 2))
    by discriminate.
  split; [exact H1|]. split; [exact H2|].
  exact (local_path_separates_ranks _ _ _ _ H1 H2).
Defined.

Lemma save_overwrites_witness :
  "ckpt/m_1-of-2"%string <> policy_path Sample.fresh Sample.policy /\
  fs (save (Some Sample.policy) 2 Sample.fresh).1.2 !! "ckpt/m_1-of-2"%string
  = None.
Proof.
  assert (H : "ckpt/m_1-of-2"%string <> policy_path Sample.fresh Sample.policy)
    by discriminate.
  split; [exact H|].
  exact (proj2 (proj2 (save_overwrites Sample.policy 1 2 Sample.fresh)) _ H).
Defined.

Lemma recovery_without_scheduler_witness :
  lr_scheduler Sample.unscheduled = None /\
  recovery (Some Sample.policy) Sample.unscheduled
  = (Ok tt,
     set_optimizer (B := Sample.backend) 9
       (set_model (B := Sample.backend) 42 Sample.unscheduled),
     [LogInfo (StartRecovery "ckpt/m_0-of-1"); LogWarning "recovery error"]) /\
  starting_epoch (recovery (Some Sample.policy) Sample.unscheduled).1.2 = 0.
Proof.
  pose proof (recovery_without_scheduler Sample.policy Sample.unscheduled
                (saved_status Sample.trained 5) [42] [9] 42 9
                eq_refl eq_refl eq_refl eq_refl eq_refl
                (ex_intro _ _ eq_refl) eq_refl) as H.
  split; [reflexivity|]. split; [exact H|]. rewrite H. reflexivity.
Defined.

Lemma recovery_without_scheduler_entry_witness :
  lr_scheduler Sample.rescheduled = Some 0 /\
  Sample.bare_record !! "lr_scheduler"%string = None /\
  recovery (Some Sample.policy) Sample.rescheduled
  = (Ok tt,
     set_starting_epoch 5
       (set_optimizer (B := Sample.backend) 1
          (set_model (B := Sample.backend) 7 Sample.rescheduled)),
     [LogInfo (StartRecovery "ckpt/m_0-of-1"); LogInfo (RecoveryTo 5)]).
Proof.
  split; [reflexivity|]. split; [reflexivity|].
  exact (recovery_without_scheduler_entry Sample.policy Sample.rescheduled
           Sample.bare_record [7] [1] 7 1 4
           eq_refl eq_refl eq_refl eq_refl eq_refl eq_refl eq_refl).
Defined.

Lemma train_milestones_witness :
  first_step_safe Sample.checkpointed /\
  milestones (train Sample.checkpointed).2
  = [Phase (TrainPhase 0); Phase (EvalPhase 0);
     Checkpoint "ckpt/m_0-of-1" (Some (VPy (PInt 0))); Barrier;
     Phase (TrainPhase 1); Phase (EvalPhase 1);
     Checkpoint "ckpt/m_0-of-1" (Some (VPy (PInt 1))); Barrier;
     Phase (TrainPhase 2); Phase (EvalPhase 2);
     Checkpoint "ckpt/m_0-of-1" (Some (VPy (PInt 2))); Barrier;
     Barrier].
Proof.
  split; [exact sample_first_step_safe|].
  destruct (train_milestones Sample.checkpointed sample_first_step_safe)
    as (w' & t & E & M).
  rewrite E. exact M.
Defined.


Lemma train_raises_on_zero_log_step_witness :
  default 1 (log_step (config Sample.silent)) = 0 /\
  exists w' t,
    train Sample.silent = (Raise ZeroDivisionError, w', t) /\
    step_ops t = [Accumulate; OptimizerStep; SchedulerStep; ZeroGrad] /\
    milestones t = [Phase (TrainPhase 0)] /\
    fs w' = ∅.
Proof.
  split; [reflexivity|].
  exact (train_raises_on_zero_log_step Sample.silent Sample.two [Sample.three]
           eq_refl eq_refl eq_refl).
Defined.

Lemma train_raises_on_training_overflow_witness :
  train_dataloader Sample.exploding = [Sample.one_million; Sample.two] /\
  exists w' t,
    train Sample.exploding = (Raise OverflowError, w', t) /\
    step_ops t = [Accumulate; OptimizerStep; ZeroGrad] /\
    milestones t = [Phase (TrainPhase 0)] /\
    fs w' = ∅.
Proof.
  split; [reflexivity|].
  assert (H : default 1 (log_step (config Sample.exploding)) <> 0)
    by discriminate.
  exact (train_raises_on_training_overflow Sample.exploding
           Sample.one_million [Sample.two] eq_refl H eq_refl eq_refl).
Defined.

Lemma init_failures_witness :
  __init__ (W := Sample.workbench) Sample.sectionless_settings
  = inl (Uncaught AttributeError) /\
  __init__ (W := Sample.workbench) Sample.typeless_settings
  = inl (ValueError "there is no None dataprocesser.").
Proof.
  split.
  - exact (proj1 (init_failures (W := Sample.workbench)
                    Sample.sectionless_settings) eq_refl).
  - exact (proj2 (init_failures (W := Sample.workbench)
                    Sample.typeless_settings) ∅ eq_refl eq_refl eq_refl).
Defined.

Lemma sample_prepare :
  (prepare Sample.built 100 5 ([Sample.two; Sample.three; Sample.two], None)
     0 (0, 1) ∅).1 = Ok Sample.prepared.
Proof. reflexivity. Qed.

Lemma prepare_has_scheduler_witness :
  (prepare Sample.built 100 5 ([Sample.two; Sample.three; Sample.two], None)
     0 (0, 1) ∅).1 = Ok Sample.prepared /\
  has_scheduler Sample.prepared = true.
Proof.
  split; [exact sample_prepare|].
  exact (proj1 (prepare_has_scheduler Sample.built 100 5
                  ([Sample.two; Sample.three; Sample.two], None) 0 (0, 1) ∅
                  Sample.prepared sample_prepare)).
Defined.

Lemma prepare_sizes_scheduler_witness :
  lr_scheduler_config (self_config Sample.built)
  = Some {[ "enable"%string := SBool true ]} /\
  exists s,
    get_scheduler (Workbench := Sample.workbench) (SStr "linear") 0 (SInt 0)
      (SInt (3 * 2)) = Ok s.
Proof.
  split; [reflexivity|].
  destruct (prepare_sizes_scheduler Sample.built 100 5
              ([Sample.two; Sample.three; Sample.two], None) 0 (0, 1) ∅
              Sample.prepared {[ "enable"%string := SBool true ]}
              eq_refl eq_refl eq_refl sample_prepare) as (s & E & _).
  exists s. exact E.
Defined.


Lemma prepare_returns_without_scheduler_witness :
  scheduler_enabled (self_config Sample.plain) = false /\
  exists w,
    (prepare Sample.plain 100 5 ([Sample.two], None) 0 (0, 1)
       Sample.damaged).1 = Ok w /\
    lr_scheduler w = None.
Proof.
  split; [reflexivity|].
  exact (prepare_returns_without_scheduler Sample.plain 100 5
           ([Sample.two], None) 0 (0, 1) Sample.damaged eq_refl).
Defined.

Lemma restart_resumes_witness :
  checkpoint (job_keys (self_config Sample.built)) = Some Sample.policy /\
  starting_epoch Sample.prepared
    < default 1 (num_train_epochs (job_keys (self_config Sample.built))) /\
  exists w1' t1,
    train Sample.prepared = (Ok tt, w1', t1) /\
    forall w2,
      (prepare Sample.built 7 5 ([Sample.three], None) 3 (0, 1) (fs w1')).1
      = Ok w2 ->
      starting_epoch w2 = 2 /\
      model_state_dict (unwrap_model (model w2))
      = model_state_dict (unwrap_model (model w1')) /\
      optimizer_state_dict (optimizer w2)
      = optimizer_state_dict (optimizer w1') /\
      phases (train w2).2 = [].
Proof.
  split; [reflexivity|]. split; [reflexivity|].
  exact (restart_resumes Sample.built Sample.policy 100 7 5 5
           ([Sample.two; Sample.three; Sample.two], None)
           ([Sample.three], None) 0 3 (0, 1) (0, 1) ∅ Sample.prepared
           sample_saved_state_loadable eq_refl sample_prepare sample_prepared_safe
           eq_refl eq_refl eq_refl).
Defined.

Lemma factory_rejects_keywords_witness :
  Factory.name Factory.twice_named = Some "gpt2"%string /\
  Factory.__call__ Factory.twice_named = Raise TypeError.
Proof.
  split; [reflexivity|].
  exact (proj2 (factory_rejects_keywords Factory.twice_named) "gpt2"%string
           {[ "pretrained_model_name_or_path"%string := 1 ]}
           eq_refl eq_refl (ex_intro _ 1 eq_refl)).
Defined.

Lemma deltatuner_needs_lora_witness :
  Factory.lora_config Factory.delta_only = Factory.Dict ∅ /\
  Factory.__call__ Factory.delta_only = Ok ["gpt2"%string] /\
  Factory.__call__ (Factory.with_deltatuner Factory.Absent Factory.delta_only)
  = Factory.__call__ Factory.delta_only.
Proof.
  split; [reflexivity|]. split; [reflexivity|].
  exact (deltatuner_needs_lora Factory.delta_only Factory.Absent
           (or_intror (or_intror eq_refl))).
Defined.

Lemma llama_generation_ids_witness :
  Predictor.search_ignorecase "llama" "LlamaForCausalLM" = true /\
  exists m' t',
    Predictor.configure_tokenizer "llama-2-7b" (Predictor.llama, Predictor.unpadded)
    = inr (m', t') /\
    Predictor.bos_token_id (Predictor.generation_config m') = Some (Some 1) /\
    Predictor.eos_token_id (Predictor.generation_config m') = Some (Some 2) /\
    is_Some (Predictor.pad_token_id (Predictor.generation_config m')).
Proof.
  split; [reflexivity|].
  exact (llama_generation_ids (T := Predictor.plain) "llama-2-7b"
           Predictor.llama Predictor.unpadded "LlamaForCausalLM" []
           eq_refl eq_refl).
Defined.

Lemma configure_tokenizer_raises_witness :
  Predictor.search_ignorecase "llama" "GPT2LMHeadModel" = false /\
  Predictor.configure_tokenizer "gpt2" (Predictor.bare, Predictor.unpadded)
  = inl (Predictor.Exn AttributeError).
Proof.
  split; [reflexivity|].
  apply (proj2 (configure_tokenizer_raises (T := Predictor.plain) "gpt2"
                  Predictor.bare Predictor.unpadded
                  (Predictor.Exn AttributeError))).
  right. right. exists "GPT2LMHeadModel"%string, [].
  repeat split.
Defined.


(** ** The round trip under a wrapping accelerator, and a diverged
    training loss *)

(** The wrapping backend keeps the contract of the tensor engine: every
    object accepts the state dictionary of its own making. *)
Lemma distributed_own_state_loadable :
  own_state_loadable (B := Distributed.backend).
Proof.
  split; [|split].
  - intros m. exists m. cbn. unfold Distributed.load_state_dict,
      Distributed.state_dict. rewrite String.eqb_refl.
    destruct m; split; reflexivity.
  - intros o. exists o. split; reflexivity.
  - intros s. exists s. reflexivity.
Qed.

(** C4. [save] stores the state dictionary of the unwrapped model, and
    [recovery] loads it into the model as the accelerator prepared it.
    Under a wrapper that keys its state dictionary with its own prefix,
    [recovery] on the policy, rank and size that [save] wrote a record for
    at epoch 5 fails in [load_state_dict]: it logs the warning and leaves
    the starting epoch at 0 and the model as it was, although every object
    of this backend accepts a state dictionary of its own making.  Where
    the accelerator left the model unwrapped, the same steps give the
    starting epoch 6 and the saved state. *)
Theorem wrapped_save_then_recovery_fails :
  own_state_loadable (B := Distributed.backend) /\
  rank Distributed.restarted = rank Distributed.trained /\
  size Distributed.restarted = size Distributed.trained /\
  fs Distributed.restarted
  = fs (save (Some Sample.policy) 5 Distributed.trained).1.2 /\
  fs Distributed.restarted !! "ckpt/m_0-of-2"%string
  = Some (Stored (saved_status Distributed.trained 5)) /\
  saved_status Distributed.trained 5 !! "model"%string
  = Some (VBlob (B := Distributed.backend) [("weight"%string, 42)]) /\
  model_state_dict (model Distributed.trained)
  = [("module.weight"%string, 42)] /\
  recovery (Some Sample.policy) Distributed.restarted
  = (Ok tt, Distributed.restarted,
     [LogInfo (StartRecovery "ckpt/m_0-of-2");
      LogWarning "recovery error"]) /\
  starting_epoch (recovery (Some Sample.policy) Distributed.restarted).1.2
  = 0 /\
  starting_epoch
    (recovery (Some Sample.policy) Distributed.restarted_bare).1.2 = 6 /\
  model (recovery (Some Sample.policy) Distributed.restarted_bare).1.2
  = model Distributed.trained_bare.
Proof.
  split; [exact distributed_own_state_loadable|].
  repeat split.
Qed.

(** C3. A job of two epochs that starts at epoch 0 with the default log
    cadence, on a training loader whose first batch has a loss of one
    million: [train] raises [OverflowError] from the log line of the first
    training step, so that it goes through the training phase of epoch 0
    only and runs no evaluation, checkpoint or barrier, and no second epoch.
    The evaluation phase, which computes the same exponential, returns on
    that loss. *)
Theorem train_overflow_halts_first_epoch :
  starting_epoch Sample.exploding = 0 /\
  default 1 (num_train_epochs (config Sample.exploding)) = 2 /\
  default 1 (log_step (config Sample.exploding)) = 1 /\
  train_dataloader Sample.exploding = [Sample.one_million; Sample.two] /\
  (train Sample.exploding).1.1 = Raise OverflowError /\
  milestones (train Sample.exploding).2 = [Phase (TrainPhase 0)] /\
  forwarded (train Sample.exploding).2 = [Sample.one_million] /\
  eval_dataloader Sample.diverged = Some [Sample.one_million; Sample.two] /\
  (eval_phase 0 Sample.diverged).1.1 = Ok tt.
Proof. repeat split. Qed.
